(** * Experiment orchestration (src/experiment.py)

    A shallow embedding of the [Experiment] class: the name-to-object
    dispatch of [get_benchmark] and [get_strategy], the constructor, the
    training loop of [run_experiment] with its last-layer step, and
    [check_if_feature_extractor_is_unchanged].

    The training framework (benchmarks, models, strategies, metrics) is
    not part of the repository.  Framework objects are represented by the
    constructor call that builds them; what the framework computes when
    [train] and [eval] are called is a parameter of the development
    ([Framework]).  Model objects are mutable and shared between the
    experiment, its strategy and a deep copy, so they live in a store and
    are handled through references. *)

From Stdlib Require Import ZArith String List Bool Lia.
From Stdlib Require Import Floats.SpecFloat.
From stdpp Require Import base list.
Import ListNotations.

(** ** Values *)

(** Python floats and tensor elements: IEEE 754 values.  Only comparison
    and sign change are used, neither depends on the format. *)
Abbreviation pyfloat := spec_float.

(** A tensor: its shape (the sizes of its dimensions, outermost first;
    [[]] for a scalar) and its elements in row-major order. *)
Record Tensor := mkTensor {
  shape : list nat;
  elems : list spec_float
}.

Record Param := mkParam {
  data : Tensor;
  requires_grad : bool
}.

(** A torch module, as far as this file uses one: [parameters()] and
    [requires_grad_]. *)
Record TorchModule := mkModule {
  parameters : list Param
}.

(** The network returned by [make_icarl_net]. *)
Record Model := mkModel {
  feature_extractor : TorchModule;
  classifier : TorchModule
}.

(** References to model objects, and the store they point into. *)
Abbreviation ref := nat.
Abbreviation Store := (list Model).

(** The command-line arguments read by this file. *)
Record Args := mkArgs {
  dataset : string;
  strategy_name : string;          (* args.strategy *)
  experiences : Z;
  cpu : bool;
  learning_rate : pyfloat;
  batch_size : Z;
  epochs : Z;
  last_layer_epochs : Z;
  ewc_lambda : pyfloat;
  ewc_mode : string;
  ewc_decay_factor : option pyfloat;
  ewc_keep_importance_data : bool;
  lwf_alpha : pyfloat;
  lwf_temperature : pyfloat;
  si_lambda : pyfloat;
  si_eps : pyfloat;
  icarl_memory_size : Z
}.

(** ** Framework objects, by constructor call *)

Inductive Benchmark :=
| SplitCIFAR100 (n_experiences : Z)
| SplitMNIST (n_experiences : Z)
| SplitCUB200 (n_experiences : Z).

Inductive Device := Cuda0 | CpuDevice.

Definition str_device (d : Device) : string :=
  match d with Cuda0 => "cuda:0" | CpuDevice => "cpu" end.

Inductive Metric :=
| accuracy_metrics (epoch experience stream : bool)
| loss_metrics (epoch experience stream : bool).

Inductive MetricLogger :=
| InteractiveLogger
| TextLogger (file : string)                       (* open(file, 'a') *)
| WandBLogger (project_name run_name : string).

Record EvaluationPlugin := mkEvaluationPlugin {
  ep_metrics : list Metric;
  ep_benchmark : Benchmark;
  ep_loggers : list MetricLogger
}.

(** [Adam(model.parameters(), lr=...)]: the optimizer holds the
    parameters of the model at [adam_params]. *)
Record Optimizer := Adam {
  adam_params : ref;
  adam_lr : pyfloat
}.

Inductive Criterion := CrossEntropyLoss.

(** [self.plugins] and [self.scheduler] are only ever [None]. *)
Inductive Plugin := .

(** The arguments every strategy but ICaRL is built from. *)
Record BaseArgs := mkBaseArgs {
  st_model : ref;
  st_optimizer : Optimizer;
  st_criterion : Criterion;
  train_mb_size : Z;
  eval_mb_size : Z;
  train_epochs : Z;
  evaluator : EvaluationPlugin;
  st_device : Device;
  st_plugins : option (list Plugin)
}.

Inductive ModelPart := FeatureExtractorOf (r : ref) | ClassifierOf (r : ref).

Record ICaRLArgs := mkICaRLArgs {
  ic_feature_extractor : ModelPart;
  ic_classifier : ModelPart;
  ic_optimizer : Optimizer;
  ic_train_mb_size : Z;
  ic_eval_mb_size : Z;
  ic_train_epochs : Z;
  ic_evaluator : EvaluationPlugin;
  ic_device : Device;
  ic_plugins : option (list Plugin);
  memory_size : Z;
  fixed_memory : bool;
  buffer_transform : option Plugin
}.

Inductive Strategy :=
| JointTraining (b : BaseArgs)
| Naive (b : BaseArgs)
| EWC (b : BaseArgs) (ewc_lambda : pyfloat) (mode : string)
      (decay_factor : option pyfloat) (keep_importance_data : bool)
| LwF (b : BaseArgs) (alpha temperature : pyfloat)
| SynapticIntelligence (b : BaseArgs) (si_lambda eps : pyfloat)
| ICaRL (a : ICaRLArgs).

(** One element of a benchmark stream. *)
Record Experience := mkExperience {
  current_experience : Z;
  classes_in_this_experience : list Z
}.

(** [train] accepts one experience or a whole stream. *)
Inductive TrainArg :=
| OneExperience (e : Experience)
| WholeStream (es : list Experience).

(** The dictionary of metric values returned by [train] and [eval]. *)
Abbreviation Metrics := (list (string * spec_float)).

(** ** Outcomes, events and the world *)

Inductive exn :=
| AttributeError (attribute : string)   (* 'NoneType' object has no attribute ... *)
| TypeError (function : string)         (* wrong number of positional arguments *)
| NameError (name : string)             (* name ... is not defined *)
| RuntimeError (what : string)          (* raised by torch *)
| OSError (file : string)               (* open() failed *)
| InvalidReference (r : ref).           (* a reference outside the store; never
                                           produced by references the code creates *)

Inductive outcome (A : Type) :=
| Ok (a : A)
| Raise (e : exn).
Arguments Ok {A} a.
Arguments Raise {A} e.

(** A logged message: a literal, or one of the two f-strings of the loop
    with the value it interpolates. *)
Inductive Msg :=
| Text (s : string)
| StartOfExperience (n : Z)             (* f"Start of experience: {n}" *)
| CurrentClasses (cs : list Z).         (* f"Current Classes: {cs}" *)

Inductive Event :=
| LogInfo (m : Msg)                     (* self.logger.info(m) *)
| LogError (m : Msg)                    (* self.logger.error(m) *)
| CallTrain (s : Strategy) (a : TrainArg)
| CallEval (s : Strategy) (stream : list Experience) (result : Metrics).

(** What the framework does, for a framework state [S] (strategy
    internals, optimizer moments, accumulated metrics).  [train] and
    [eval] may change the objects of the store in any way; they neither
    create nor destroy the model objects this file holds references to. *)
Record Framework (S : Type) := mkFramework {
  n_classes : Benchmark -> Z;
  train_stream : Benchmark -> list Experience;
  test_stream : Benchmark -> list Experience;
  make_icarl_net : Z -> Z -> Z -> Model;      (* num_classes, n, c *)
  strategy_train : Strategy -> TrainArg -> Store * S -> Metrics * (Store * S);
  strategy_eval : Strategy -> list Experience -> Store * S -> Metrics * (Store * S);
  train_keeps_objects : forall s a st fs,
    length (fst (snd (strategy_train s a (st, fs)))) = length st;
  eval_keeps_objects : forall s es st fs,
    length (fst (snd (strategy_eval s es (st, fs)))) = length st
}.
Arguments n_classes {S} _ _.
Arguments train_stream {S} _ _.
Arguments test_stream {S} _ _.
Arguments make_icarl_net {S} _ _ _ _.
Arguments strategy_train {S} _ _ _ _.
Arguments strategy_eval {S} _ _ _ _.
Arguments train_keeps_objects {S} _ _ _ _ _.
Arguments eval_keeps_objects {S} _ _ _ _ _.

Record World (S : Type) := mkWorld {
  store : Store;
  fw_state : S;
  trace : list Event
}.
Arguments mkWorld {S} _ _ _.
Arguments store {S} _.
Arguments fw_state {S} _.
Arguments trace {S} _.

(** ** The monad of methods: state and exceptions *)

Definition M (S A : Type) : Type := World S -> outcome A * World S.

Definition ret {S A} (a : A) : M S A := fun w => (Ok a, w).

Definition raise {S A} (e : exn) : M S A := fun w => (Raise e, w).

Definition bind {S A B} (c : M S A) (k : A -> M S B) : M S B :=
  fun w =>
    match c w with
    | (Ok a, w') => k a w'
    | (Raise e, w') => (Raise e, w')
    end.

Declare Scope py_scope.
Delimit Scope py_scope with py.
Notation "'let*' x ':=' c 'in' k" := (bind c (fun x => k))
  (at level 10, x name, c at level 100, k at level 200, only parsing) : py_scope.
Notation "c ';;' k" := (bind c (fun _ => k))
  (at level 100, k at level 200, only parsing, right associativity) : py_scope.
Local Open Scope py_scope.

Definition emit {S} (e : Event) : M S unit :=
  fun w => (Ok tt, mkWorld (store w) (fw_state w) (trace w ++ [e])).

Definition log_info {S} (m : Msg) : M S unit := emit (LogInfo m).
Definition log_error {S} (m : Msg) : M S unit := emit (LogError m).

(** Reading the object behind a reference. *)
Definition load {S} (r : ref) : M S Model :=
  fun w =>
    match store w !! r with
    | Some m => (Ok m, w)
    | None => (Raise (InvalidReference r), w)
    end.

(** A new object; its reference is the next free one. *)
Definition alloc {S} (m : Model) : M S ref :=
  fun w => (Ok (length (store w)), mkWorld (store w ++ [m]) (fw_state w) (trace w)).

(** [copy.deepcopy(model)]: a new object with the same contents. *)
Definition deepcopy {S} (r : ref) : M S ref :=
  let* m := load r in alloc m.

(** [module.requires_grad_(flag)]: sets the flag of every parameter of
    the module, in place. *)
Definition module_requires_grad_ (flag : bool) (md : TorchModule) : TorchModule :=
  mkModule (map (fun p => mkParam (data p) flag) (parameters md)).

(** [model.feature_extractor.requires_grad_(flag)] on the object at [r]. *)
Definition feature_extractor_requires_grad_ {S} (r : ref) (flag : bool) : M S unit :=
  let* m := load r in
  fun w =>
    (Ok tt,
     mkWorld (<[r := mkModel (module_requires_grad_ flag (feature_extractor m))
                             (classifier m)]> (store w))
             (fw_state w) (trace w)).

(** ** Tensor comparison, as [check_if_feature_extractor_is_unchanged]
    uses it *)

(** The number of elements of a tensor of shape [s]. *)
Definition numel (s : list nat) : nat := fold_right Nat.mul 1 s.

(** torch's broadcasting rule for one dimension: the sizes are equal,
    or one of them is 1. *)
Definition broadcast_dim (d1 d2 : nat) : option nat :=
  if Nat.eqb d1 d2 then Some d1
  else if Nat.eqb d1 1 then Some d2
  else if Nat.eqb d2 1 then Some d1
  else None.

Fixpoint broadcast_dims (s1 s2 : list nat) : option (list nat) :=
  match s1, s2 with
  | [], [] => Some []
  | d1 :: r1, d2 :: r2 =>
      match broadcast_dim d1 d2, broadcast_dims r1 r2 with
      | Some d, Some r => Some (d :: r)
      | _, _ => None
      end
  | _, _ => None
  end.

(** A shape seen with [n] dimensions: missing leading dimensions count
    as 1. *)
Definition pad_shape (n : nat) (s : list nat) : list nat :=
  repeat 1 (n - length s) ++ s.

(** The shape two tensors broadcast to: the shapes are aligned at the
    trailing dimension and compared dimension by dimension. *)
Definition broadcast_shapes (s1 s2 : list nat) : option (list nat) :=
  let n := Nat.max (length s1) (length s2) in
  broadcast_dims (pad_shape n s1) (pad_shape n s2).

(** [n] consecutive blocks of [k] elements. *)
Fixpoint chunks {A} (k n : nat) (l : list A) : list (list A) :=
  match n with
  | 0 => []
  | Datatypes.S n' => firstn k l :: chunks k n' (skipn k l)
  end.

(** The elements of a tensor of shape [src] expanded to shape [tgt]
    (of the same number of dimensions): a dimension of size 1 is
    repeated, the others are kept. *)
Fixpoint expand (src tgt : list nat) (l : list spec_float) : list spec_float :=
  match src, tgt with
  | d :: src', d' :: tgt' =>
      let rows := map (expand src' tgt') (chunks (numel src') d l) in
      if Nat.eqb d d' then concat rows else concat (repeat (concat rows) d')
  | _, _ => l
  end.

Definition expand_to (s : list nat) (t : Tensor) : list spec_float :=
  expand (pad_shape (length s) (shape t)) s (elems t).

(** IEEE inequality of two elements: a NaN differs from everything,
    itself included. *)
Definition float_ne (x y : spec_float) : bool := negb (SFeqb x y).

Definition is_nan (x : spec_float) : bool :=
  match x with S754_nan => true | _ => false end.

Fixpoint zip_with_ne (l1 l2 : list spec_float) : list bool :=
  match l1, l2 with
  | x :: l1', y :: l2' => float_ne x y :: zip_with_ne l1' l2'
  | _, _ => []
  end.

(** [t1.ne(t2)]: both tensors are expanded to the shape they broadcast
    to and compared position by position; the result is the boolean
    tensor of the positions that differ (its elements, in row-major
    order).  torch raises RuntimeError when the shapes do not
    broadcast. *)
Definition tensor_ne (t1 t2 : Tensor) : outcome (list bool) :=
  match broadcast_shapes (shape t1) (shape t2) with
  | Some s => Ok (zip_with_ne (expand_to s t1) (expand_to s t2))
  | None => Raise (RuntimeError "The size of tensor a must match the size of tensor b")
  end.

(** [b.sum()] of a boolean tensor: the number of [True]s. *)
Fixpoint tensor_sum (b : list bool) : Z :=
  match b with
  | [] => 0
  | x :: b' => (if x then 1 else 0) + tensor_sum b'
  end%Z.

(** Python's [zip]: stops at the shorter sequence. *)
Fixpoint zip {A B} (l1 : list A) (l2 : list B) : list (A * B) :=
  match l1, l2 with
  | a :: l1', b :: l2' => (a, b) :: zip l1' l2'
  | _, _ => []
  end.

(** ** The Experiment *)

(** What [__init__] reads besides its argument. *)
Record Env := mkEnv {
  cuda_is_available : bool;         (* torch.cuda.is_available() *)
  now : string;                     (* str(datetime.now()) *)
  log_file : option string;         (* the module-level name log_file, which
                                       this file reads and does not define;
                                       None when it is unbound *)
  can_open : string -> bool         (* whether open(file, 'a') succeeds *)
}.

(** The attributes of an Experiment once [get_benchmark] has returned a
    benchmark and the model is built: from line 37 on, [benchmark] and
    [model] are objects, while [strategy] is whatever [get_strategy]
    returned, None included. *)
Record Experiment := mkExperiment {
  logger : string;                  (* the logger created for run_name *)
  device : Device;
  args : Args;
  benchmark : Benchmark;
  model : ref;
  eval_plugin : EvaluationPlugin;
  optimizer : Optimizer;
  scheduler : option Plugin;
  strategy : option Strategy;
  plugins : option (list Plugin)
}.

Section Methods.

Context {S : Type} (F : Framework S).

(** [strategy.train(arg)] and [strategy.eval(stream)]: the framework
    runs on the store and on its own state; the call is recorded. *)
Definition call_train (s : Strategy) (a : TrainArg) : M S Metrics :=
  fun w =>
    let '(res, (st, fs)) := strategy_train F s a (store w, fw_state w) in
    (Ok res, mkWorld st fs (trace w ++ [CallTrain s a])).

Definition call_eval (s : Strategy) (stream : list Experience) : M S Metrics :=
  fun w =>
    let '(res, (st, fs)) := strategy_eval F s stream (store w, fw_state w) in
    (Ok res, mkWorld st fs (trace w ++ [CallEval s stream res])).

(** [self.strategy.<method>]: attribute access on None raises. *)
Definition strategy_attr (self : Experiment) (method : string) : M S Strategy :=
  match strategy self with
  | Some s => ret s
  | None => raise (AttributeError method)
  end.

(** get_benchmark, lines 107-113.  Falling off the end returns None. *)
Definition get_benchmark (a : Args) : M S (option Benchmark) :=
  if String.eqb (dataset a) "CIFAR100" then
    ret (Some (SplitCIFAR100 (experiences a)))
  else if String.eqb (dataset a) "MNIST" then
    ret (Some (SplitMNIST (experiences a)))
  else if String.eqb (dataset a) "CUB200" then
    ret (Some (SplitCUB200 (experiences a)))
  else ret None.

(** The positional and keyword arguments shared by lines 117-120,
    122-125, 127-129, 133-135 and 138-141. *)
Definition base_args (self : Experiment) (a : Args) : BaseArgs :=
  {| st_model := model self;
     st_optimizer := optimizer self;
     st_criterion := CrossEntropyLoss;
     train_mb_size := batch_size a;
     eval_mb_size := batch_size a;
     train_epochs := epochs a;
     evaluator := eval_plugin self;
     st_device := device self;
     st_plugins := plugins self |}.

(** get_strategy, lines 115-148. *)
Definition get_strategy (self : Experiment) (a : Args) : M S (option Strategy) :=
  if String.eqb (strategy_name a) "JOINT" then
    ret (Some (JointTraining (base_args self a)))
  else if String.eqb (strategy_name a) "NAIVE" then
    ret (Some (Naive (base_args self a)))
  else if String.eqb (strategy_name a) "EWC" then
    ret (Some (EWC (base_args self a) (ewc_lambda a) (ewc_mode a)
                   (ewc_decay_factor a) (ewc_keep_importance_data a)))
  else if String.eqb (strategy_name a) "LWF" then
    ret (Some (LwF (base_args self a) (lwf_alpha a) (lwf_temperature a)))
  else if String.eqb (strategy_name a) "SI" then
    ret (Some (SynapticIntelligence (base_args self a) (si_lambda a) (si_eps a)))
  else if String.eqb (strategy_name a) "ICARL" then
    ret (Some (ICaRL
      {| ic_feature_extractor := FeatureExtractorOf (model self);
         ic_classifier := ClassifierOf (model self);
         ic_optimizer := optimizer self;
         ic_train_mb_size := batch_size a;
         ic_eval_mb_size := batch_size a;
         ic_train_epochs := epochs a;
         ic_evaluator := eval_plugin self;
         ic_device := device self;
         ic_plugins := plugins self;
         memory_size := icarl_memory_size a;
         fixed_memory := true;
         buffer_transform := None |}))
  else ret None.

(** n_channels, line 36. *)
Definition n_channels (a : Args) : Z :=
  if String.eqb (dataset a) "MNIST" then 1%Z else 3%Z.

(** __init__, lines 27-56. *)
Definition init (env : Env) (a : Args) : M S Experiment :=
  let run_name :=
    ("Mgr-" ++ dataset a ++ ", " ++ strategy_name a ++ "-" ++ now env)%string in
  let dev := if cuda_is_available env && negb (cpu a) then Cuda0 else CpuDevice in
  log_info (Text ("device: " ++ str_device dev)%string);;
  let* ob := get_benchmark a in
  let c := n_channels a in
  (* self.benchmark.n_classes *)
  let* b := match ob with
            | Some b => ret b
            | None => raise (AttributeError "n_classes")
            end in
  let* m := alloc (make_icarl_net F (n_classes F b) 5%Z c) in
  (* log_file *)
  let* name := match log_file env with
               | Some f => ret f
               | None => raise (NameError "log_file")
               end in
  (* open(log_file, 'a') *)
  let* file := if can_open env name then ret name
               else raise (OSError name) in
  let ep :=
    {| ep_metrics := [accuracy_metrics true true true; loss_metrics true true true];
       ep_benchmark := b;
       ep_loggers := [InteractiveLogger; TextLogger file;
                      WandBLogger "reg-alg-cl-last-layer-importance" run_name] |} in
  let self :=
    {| logger := run_name; device := dev; args := a; benchmark := b; model := m;
       eval_plugin := ep; optimizer := Adam m (learning_rate a);
       scheduler := None; strategy := None; plugins := None |} in
  let* st := get_strategy self a in
  ret {| logger := run_name; device := dev; args := a; benchmark := b; model := m;
         eval_plugin := ep; optimizer := Adam m (learning_rate a);
         scheduler := None; strategy := st; plugins := None |}.

(** check_if_feature_extractor_is_unchanged, lines 102-105, on the
    zipped parameter pairs. *)
Fixpoint check_param_pairs (ps : list (Param * Param)) : outcome bool :=
  match ps with
  | [] => Ok true
  | (p1, p2) :: rest =>
      match tensor_ne (data p1) (data p2) with
      | Raise e => Raise e
      | Ok d => if (0 <? tensor_sum d)%Z then Ok false else check_param_pairs rest
      end
  end.

(** check_if_feature_extractor_is_unchanged(self, frozen_model),
    lines 101-105. *)
Definition check_if_feature_extractor_is_unchanged
    (self : Experiment) (frozen_model : ref) : M S bool :=
  let* m1 := load (model self) in
  let* m2 := load frozen_model in
  fun w =>
    (check_param_pairs (zip (parameters (feature_extractor m1))
                            (parameters (feature_extractor m2))), w).

(** Calling the bound method with a list of positional arguments: the
    definition takes exactly one besides self. *)
Definition call_check_if_feature_extractor_is_unchanged
    (self : Experiment) (positional : list ref) : M S bool :=
  match positional with
  | [frozen_model] => check_if_feature_extractor_is_unchanged self frozen_model
  | _ => raise (TypeError "check_if_feature_extractor_is_unchanged")
  end.

(** The for loop of run_experiment, lines 70-80, on the experiences
    still to visit and the results list so far. *)
Fixpoint experience_loop (self : Experiment) (exps : list Experience)
    (results : list Metrics) : M S (list Metrics) :=
  match exps with
  | [] => ret results
  | experience :: rest =>
      log_info (StartOfExperience (current_experience experience));;
      log_info (CurrentClasses (classes_in_this_experience experience));;
      let* s := strategy_attr self "train" in
      let* res := call_train s (OneExperience experience) in
      log_info (Text "Training completed");;
      log_info (Text "Computing accuracy on the whole test set");;
      let* s' := strategy_attr self "eval" in
      let* r := call_eval s' (test_stream F (benchmark self)) in
      experience_loop self rest (results ++ [r])
  end.

(** The strategy built at lines 84-88: joint training on the live model
    [self.model], for [last_layer_epochs] epochs. *)
Definition last_layer_strategy (self : Experiment) : Strategy :=
  JointTraining
    {| st_model := model self;
       st_optimizer := optimizer self;
       st_criterion := CrossEntropyLoss;
       train_mb_size := batch_size (args self);
       eval_mb_size := batch_size (args self);
       train_epochs := last_layer_epochs (args self);
       evaluator := eval_plugin self;
       st_device := device self;
       st_plugins := plugins self |}.

(** Lines 82-94: the copy, the freeze, and joint training and
    evaluation with the new strategy.  Returns the reference of
    [frozen_model] and the results list. *)
Definition last_layer_step (self : Experiment) (results : list Metrics)
    : M S (ref * list Metrics) :=
  let* frozen_model := deepcopy (model self) in
  feature_extractor_requires_grad_ frozen_model false;;
  let strategy := last_layer_strategy self in
  log_info (Text "JOINT TRAINING ONLY ON LAST LAYER");;
  let* res := call_train strategy (WholeStream (train_stream F (benchmark self))) in
  log_info (Text "EVAL ON JOINT TRAINING ONLY ON LAST LAYER");;
  let* r := call_eval strategy (test_stream F (benchmark self)) in
  ret (frozen_model, results ++ [r]).

(** run_experiment, lines 59-99.  The value [tt] is Python's None; the
    results list is local. *)
Definition run_experiment (self : Experiment) : M S unit :=
  log_info (Text "Starting experiment...");;
  let results : list Metrics := [] in
  if String.eqb (strategy_name (args self)) "JOINT" then
    log_info (Text "JOINT TRAINING - UPPER BOUND");;
    let* s := strategy_attr self "train" in
    let* res := call_train s (WholeStream (train_stream F (benchmark self))) in
    log_info (Text "EVAL ON JOINT TRAINING");;
    let* s' := strategy_attr self "eval" in
    let* r := call_eval s' (test_stream F (benchmark self)) in
    let results := results ++ [r] in
    ret tt
  else
    let* results := experience_loop self (train_stream F (benchmark self)) results in
    let* fr := last_layer_step self results in
    let '(frozen_model, results) := fr in
    let* unchanged :=
      call_check_if_feature_extractor_is_unchanged self [model self; frozen_model] in
    if unchanged then
      log_info (Text "Feature extractors are unchanged in base model and frozen one")
    else
      log_error (Text "!!!Feature extractors are not same in base model and frozen one!!!").

End Methods.

(** ** Vocabulary of the statements *)

(** The names get_benchmark and get_strategy know. *)
Definition known_dataset (name : string) : bool :=
  String.eqb name "CIFAR100" || String.eqb name "MNIST" || String.eqb name "CUB200".

Definition known_strategy (name : string) : bool :=
  String.eqb name "JOINT" || String.eqb name "NAIVE" || String.eqb name "EWC"
  || String.eqb name "LWF" || String.eqb name "SI" || String.eqb name "ICARL".

(** The model object a strategy was built on. *)
Definition strategy_model (s : Strategy) : ref :=
  match s with
  | JointTraining b | Naive b | EWC b _ _ _ _ | LwF b _ _
  | SynapticIntelligence b _ _ => st_model b
  | ICaRL a =>
      match ic_feature_extractor a with
      | FeatureExtractorOf r | ClassifierOf r => r
      end
  end.

(** The events of one iteration of the loop (lines 71-80) for
    experience [e], when the evaluation returned [r]. *)
Definition experience_events (s : Strategy) (test : list Experience)
    (er : Experience * Metrics) : list Event :=
  [ LogInfo (StartOfExperience (current_experience (fst er)));
    LogInfo (CurrentClasses (classes_in_this_experience (fst er)));
    CallTrain s (OneExperience (fst er));
    LogInfo (Text "Training completed");
    LogInfo (Text "Computing accuracy on the whole test set");
    CallEval s test (snd er) ].

(** The events of the 'JOINT' branch (lines 64-67). *)
Definition joint_events (s : Strategy) (train test : list Experience)
    (r : Metrics) : list Event :=
  [ LogInfo (Text "JOINT TRAINING - UPPER BOUND");
    CallTrain s (WholeStream train);
    LogInfo (Text "EVAL ON JOINT TRAINING");
    CallEval s test r ].

(** The events of the last-layer step (lines 90-94). *)
Definition last_layer_events (s : Strategy) (train test : list Experience)
    (r : Metrics) : list Event :=
  [ LogInfo (Text "JOINT TRAINING ONLY ON LAST LAYER");
    CallTrain s (WholeStream train);
    LogInfo (Text "EVAL ON JOINT TRAINING ONLY ON LAST LAYER");
    CallEval s test r ].

(** The two messages that report the outcome of the check (lines 97, 99). *)
Definition unchanged_message : Event :=
  LogInfo (Text "Feature extractors are unchanged in base model and frozen one").

Definition not_same_message : Event :=
  LogError (Text "!!!Feature extractors are not same in base model and frozen one!!!").

(** [frozen_model] right after lines 82-83: the contents of [m] with
    the feature extractor's parameters frozen. *)
Definition frozen_copy (m : Model) : Model :=
  mkModel (module_requires_grad_ false (feature_extractor m)) (classifier m).

(** Two tensors are element-wise equal: they have the same shape and
    hold IEEE-equal values at every position. *)
Definition elementwise_equal (t1 t2 : Tensor) : Prop :=
  shape t1 = shape t2 /\
  Forall2 (fun x y => SFeqb x y = true) (elems t1) (elems t2).

(** A tensor as torch builds one: it has as many elements as its shape
    says. *)
Definition well_formed (t : Tensor) : Prop :=
  length (elems t) = numel (shape t).

(** Two tensors, as torch builds them, of one shape. *)
Definition same_shape (t1 t2 : Tensor) : Prop :=
  well_formed t1 /\ well_formed t2 /\ shape t1 = shape t2.

(** No element of the module's parameters is a NaN. *)
Definition nan_free (md : TorchModule) : Prop :=
  Forall (fun p => Forall (fun x => is_nan x = false) (elems (data p)))
         (parameters md).

(** The train calls and the eval calls of a trace. *)
Definition is_train (ev : Event) : bool :=
  match ev with CallTrain _ _ => true | _ => false end.

Definition is_eval (ev : Event) : bool :=
  match ev with CallEval _ _ _ => true | _ => false end.

Fixpoint count_events (p : Event -> bool) (evs : list Event) : nat :=
  match evs with
  | [] => 0
  | ev :: evs' => (if p ev then 1 else 0) + count_events p evs'
  end.

(** A module all of whose parameters have requires_grad = False. *)
Definition frozen (md : TorchModule) : Prop :=
  Forall (fun p => requires_grad p = false) (parameters md).

Section FrameworkVocabulary.

Context {S : Type} (F : Framework S).

(** The store and framework state one iteration of the loop leaves:
    train on the experience, then eval on the test stream. *)
Definition after_experience (s : Strategy) (test : list Experience)
    (x : Store * S) (e : Experience) : Store * S :=
  snd (strategy_eval F s test (snd (strategy_train F s (OneExperience e) x))).

Definition loop_state (s : Strategy) (test exps : list Experience)
    (x : Store * S) : Store * S :=
  fold_left (after_experience s test) exps x.

(** The values eval returns along the way. *)
Fixpoint loop_results (s : Strategy) (test exps : list Experience)
    (x : Store * S) : list Metrics :=
  match exps with
  | [] => []
  | e :: exps' =>
      fst (strategy_eval F s test (snd (strategy_train F s (OneExperience e) x)))
      :: loop_results s test exps' (after_experience s test x e)
  end.

(** A framework that honours requires_grad = False on a whole feature
    extractor: neither train nor eval changes a feature extractor all
    of whose parameters are frozen. *)
Definition keeps_frozen_feature_extractors : Prop :=
  (forall s a st fs r m,
     st !! r = Some m -> frozen (feature_extractor m) ->
     exists m', fst (snd (strategy_train F s a (st, fs))) !! r = Some m' /\
                feature_extractor m' = feature_extractor m) /\
  (forall s es st fs r m,
     st !! r = Some m -> frozen (feature_extractor m) ->
     exists m', fst (snd (strategy_eval F s es (st, fs))) !! r = Some m' /\
                feature_extractor m' = feature_extractor m).

End FrameworkVocabulary.

(** ** A sample framework and sample inputs

    Used to evaluate the methods on concrete inputs.  Training negates
    every element of every parameter of the strategy's model that has
    [requires_grad] set and leaves the other parameters alone, as an
    optimizer step does; evaluation reports one metric. *)
Module Sample.

Definition one : spec_float := S754_finite false 1 0.
Definition two : spec_float := S754_finite false 1 1.
Definition nan : spec_float := S754_nan.

(** A one-dimensional tensor. *)
Definition vec (l : list spec_float) : Tensor := mkTensor [length l] l.

Definition step_param (p : Param) : Param :=
  if requires_grad p
  then mkParam (mkTensor (shape (data p)) (map SFopp (elems (data p)))) true
  else p.

Definition step_module (md : TorchModule) : TorchModule :=
  mkModule (map step_param (parameters md)).

Definition step_model (m : Model) : Model :=
  mkModel (step_module (feature_extractor m)) (step_module (classifier m)).

Definition train (s : Strategy) (a : TrainArg) (x : Store * unit)
    : Metrics * (Store * unit) :=
  ([("Loss_Epoch"%string, one)], (alter step_model (strategy_model s) (fst x), snd x)).

Definition eval (s : Strategy) (es : list Experience) (x : Store * unit)
    : Metrics * (Store * unit) :=
  ([("Top1_Acc_Stream"%string, one)], x).

Definition stream (n : Z) : list Experience :=
  map (fun i => mkExperience (Z.of_nat i) [Z.of_nat i]) (seq 0 (Z.to_nat n)).

Definition bench_experiences (b : Benchmark) : Z :=
  match b with SplitCIFAR100 n | SplitMNIST n | SplitCUB200 n => n end.

Definition net (num_classes n c : Z) : Model :=
  mkModel (mkModule [mkParam (vec [one]) true])
          (mkModule [mkParam (vec [one; one]) true]).

Lemma train_keeps s a st fs : length (fst (snd (train s a (st, fs)))) = length st.
Proof. unfold train; simpl. apply length_alter. Qed.

Lemma eval_keeps s es st fs : length (fst (snd (eval s es (st, fs)))) = length st.
Proof. reflexivity. Qed.

Definition framework : Framework unit :=
  {| n_classes := fun b =>
       match b with
       | SplitCIFAR100 _ => 100 | SplitMNIST _ => 10 | SplitCUB200 _ => 200
       end%Z;
     train_stream := fun b => stream (bench_experiences b);
     test_stream := fun b => stream (bench_experiences b);
     make_icarl_net := net;
     strategy_train := train;
     strategy_eval := eval;
     train_keeps_objects := train_keeps;
     eval_keeps_objects := eval_keeps |}.

Definition sample_args (ds st : string) : Args :=
  {| dataset := ds; strategy_name := st; experiences := 2; cpu := true;
     learning_rate := one; batch_size := 32; epochs := 1; last_layer_epochs := 1;
     ewc_lambda := one; ewc_mode := "separate"; ewc_decay_factor := None;
     ewc_keep_importance_data := false; lwf_alpha := one; lwf_temperature := one;
     si_lambda := one; si_eps := one; icarl_memory_size := 2000 |}.

Definition env : Env :=
  {| cuda_is_available := false; now := "2021-01-01 00:00:00";
     log_file := Some "log.txt"%string;
     can_open := fun file => negb (String.eqb file EmptyString) |}.

Definition w0 : World unit := mkWorld [] tt [].

(** The experiment [__init__] builds for a dataset and a strategy name,
    and the world it leaves. *)
Definition built (ds st : string) : outcome Experiment * World unit :=
  init framework env (sample_args ds st) w0.

(** The experiments built for 'MNIST', written out. *)
Definition mnist_experiment (st : string) (s : option Strategy) : Experiment :=
  {| logger := ("Mgr-MNIST, " ++ st ++ "-2021-01-01 00:00:00")%string;
     device := CpuDevice;
     args := sample_args "MNIST" st;
     benchmark := SplitMNIST 2;
     model := 0;
     eval_plugin :=
       {| ep_metrics := [accuracy_metrics true true true; loss_metrics true true true];
          ep_benchmark := SplitMNIST 2;
          ep_loggers :=
            [InteractiveLogger; TextLogger "log.txt";
             WandBLogger "reg-alg-cl-last-layer-importance"
               ("Mgr-MNIST, " ++ st ++ "-2021-01-01 00:00:00")%string] |};
     optimizer := Adam 0 one;
     scheduler := None;
     strategy := s;
     plugins := None |}.

Definition naive : Experiment :=
  mnist_experiment "NAIVE"
    (Some (Naive (base_args (mnist_experiment "NAIVE" None)
                            (sample_args "MNIST" "NAIVE")))).

Definition joint : Experiment :=
  mnist_experiment "JOINT"
    (Some (JointTraining (base_args (mnist_experiment "JOINT" None)
                                    (sample_args "MNIST" "JOINT")))).

(** 'FOO' is no strategy name: get_strategy returns None. *)
Definition unknown : Experiment := mnist_experiment "FOO" None.

(** The world [__init__] leaves: the model at reference 0. *)
Definition w1 : World unit :=
  mkWorld [net 10 5 1] tt [LogInfo (Text "device: cpu")].

(** A model with a NaN among the feature extractor's parameters, as a
    diverged training leaves one, and an experiment holding it. *)
Definition nan_model : Model :=
  mkModel (mkModule [mkParam (vec [one; nan]) true])
          (mkModule [mkParam (vec [one]) true]).

Definition w_nan : World unit := mkWorld [nan_model] tt [].

(** A feature extractor with one parameter of shape (1,) next to one
    with a parameter of shape (3,) holding the same value. *)
Definition w_broadcast : World unit :=
  mkWorld [ mkModel (mkModule [mkParam (vec [one]) true]) (mkModule []);
            mkModel (mkModule [mkParam (vec [one; one; one]) true]) (mkModule []) ]
          tt [].

(** The same experiment on another benchmark, and holding another model. *)
Definition with_benchmark (b : Benchmark) (self : Experiment) : Experiment :=
  {| logger := logger self; device := device self; args := args self;
     benchmark := b; model := model self; eval_plugin := eval_plugin self;
     optimizer := optimizer self; scheduler := scheduler self;
     strategy := strategy self; plugins := plugins self |}.

Definition with_model (r : ref) (self : Experiment) : Experiment :=
  {| logger := logger self; device := device self; args := args self;
     benchmark := benchmark self; model := r; eval_plugin := eval_plugin self;
     optimizer := optimizer self; scheduler := scheduler self;
     strategy := strategy self; plugins := plugins self |}.

(** The sample model next to its frozen copy, and next to a copy
    trained one step. *)
Definition w_copied : World unit :=
  mkWorld [net 10 5 1; frozen_copy (net 10 5 1)] tt [].

Definition w_trained : World unit :=
  mkWorld [step_model (net 10 5 1); frozen_copy (net 10 5 1)] tt [].

End Sample.

(** * Properties *)

(** ** Name dispatch *)

Section Dispatch.

Context {S : Type} (F : Framework S).

(** C5. get_benchmark maps 'CIFAR100' to SplitCIFAR100, 'MNIST' to
    SplitMNIST and 'CUB200' to SplitCUB200, each built with
    n_experiences = args.experiences; it returns the object and has no
    other effect. *)
Theorem get_benchmark_resolves (a : Args) (w : World S) :
  (dataset a = "CIFAR100"%string ->
     get_benchmark a w = (Ok (Some (SplitCIFAR100 (experiences a))), w)) /\
  (dataset a = "MNIST"%string ->
     get_benchmark a w = (Ok (Some (SplitMNIST (experiences a))), w)) /\
  (dataset a = "CUB200"%string ->
     get_benchmark a w = (Ok (Some (SplitCUB200 (experiences a))), w)).
Proof.
  unfold get_benchmark.
  repeat split; intros ->; reflexivity.
Qed.

(** C6. get_strategy maps each of the six strategy names to the
    framework strategy of that name, built from the hyperparameters of
    the arguments: the five strategies other than ICaRL receive the
    model, the optimizer, CrossEntropyLoss, the batch size for training
    and evaluation, the epochs, the evaluator, the device and the
    plugins; EWC, LwF and SI receive their own hyperparameters in
    addition; ICaRL receives the feature extractor and the classifier of
    the model, memory_size and fixed_memory=True. *)
Theorem get_strategy_resolves (self : Experiment) (a : Args) (w : World S) :
  let base :=
    {| st_model := model self; st_optimizer := optimizer self;
       st_criterion := CrossEntropyLoss;
       train_mb_size := batch_size a; eval_mb_size := batch_size a;
       train_epochs := epochs a; evaluator := eval_plugin self;
       st_device := device self; st_plugins := plugins self |} in
  (strategy_name a = "JOINT"%string ->
     get_strategy self a w = (Ok (Some (JointTraining base)), w)) /\
  (strategy_name a = "NAIVE"%string ->
     get_strategy self a w = (Ok (Some (Naive base)), w)) /\
  (strategy_name a = "EWC"%string ->
     get_strategy self a w =
       (Ok (Some (EWC base (ewc_lambda a) (ewc_mode a) (ewc_decay_factor a)
                      (ewc_keep_importance_data a))), w)) /\
  (strategy_name a = "LWF"%string ->
     get_strategy self a w =
       (Ok (Some (LwF base (lwf_alpha a) (lwf_temperature a))), w)) /\
  (strategy_name a = "SI"%string ->
     get_strategy self a w =
       (Ok (Some (SynapticIntelligence base (si_lambda a) (si_eps a))), w)) /\
  (strategy_name a = "ICARL"%string ->
     exists ic,
       get_strategy self a w = (Ok (Some (ICaRL ic)), w) /\
       ic_feature_extractor ic = FeatureExtractorOf (model self) /\
       ic_classifier ic = ClassifierOf (model self) /\
       ic_optimizer ic = optimizer self /\
       ic_train_mb_size ic = batch_size a /\
       ic_eval_mb_size ic = batch_size a /\
       ic_train_epochs ic = epochs a /\
       ic_evaluator ic = eval_plugin self /\
       ic_device ic = device self /\
       ic_plugins ic = plugins self /\
       memory_size ic = icarl_memory_size a /\
       fixed_memory ic = true /\
       buffer_transform ic = None).
Proof.
  intros base. unfold get_strategy.
  repeat split; intros ->; simpl; try reflexivity.
  eexists. repeat split.
Qed.

Lemma get_benchmark_known (a : Args) (w : World S) :
  known_dataset (dataset a) = true ->
  exists b, get_benchmark a w = (Ok (Some b), w).
Proof.
  unfold known_dataset, get_benchmark. intros H.
  destruct (String.eqb (dataset a) "CIFAR100"); [eauto|].
  destruct (String.eqb (dataset a) "MNIST"); [eauto|].
  destruct (String.eqb (dataset a) "CUB200"); [eauto|].
  discriminate.
Qed.

Lemma get_benchmark_unknown (a : Args) (w : World S) :
  known_dataset (dataset a) = false ->
  get_benchmark a w = (Ok None, w).
Proof.
  unfold known_dataset, get_benchmark. intros H.
  destruct (String.eqb (dataset a) "CIFAR100"); [discriminate|].
  destruct (String.eqb (dataset a) "MNIST"); [discriminate|].
  destruct (String.eqb (dataset a) "CUB200"); [discriminate|].
  reflexivity.
Qed.

Lemma get_strategy_known (self : Experiment) (a : Args) (w : World S) :
  known_strategy (strategy_name a) = true ->
  exists s, get_strategy self a w = (Ok (Some s), w).
Proof.
  unfold known_strategy, get_strategy. intros H.
  destruct (String.eqb (strategy_name a) "JOINT"); [eauto|].
  destruct (String.eqb (strategy_name a) "NAIVE"); [eauto|].
  destruct (String.eqb (strategy_name a) "EWC"); [eauto|].
  destruct (String.eqb (strategy_name a) "LWF"); [eauto|].
  destruct (String.eqb (strategy_name a) "SI"); [eauto|].
  destruct (String.eqb (strategy_name a) "ICARL"); [eauto|].
  discriminate.
Qed.

Lemma get_strategy_unknown (self : Experiment) (a : Args) (w : World S) :
  known_strategy (strategy_name a) = false ->
  get_strategy self a w = (Ok None, w).
Proof.
  unfold known_strategy, get_strategy. intros H.
  destruct (String.eqb (strategy_name a) "JOINT"); [discriminate|].
  destruct (String.eqb (strategy_name a) "NAIVE"); [discriminate|].
  destruct (String.eqb (strategy_name a) "EWC"); [discriminate|].
  destruct (String.eqb (strategy_name a) "LWF"); [discriminate|].
  destruct (String.eqb (strategy_name a) "SI"); [discriminate|].
  destruct (String.eqb (strategy_name a) "ICARL"); [discriminate|].
  reflexivity.
Qed.

Lemma neq_eqb (x y : string) : x <> y -> String.eqb x y = false.
Proof. apply String.eqb_neq. Qed.

(** C8. For a dataset name other than 'CIFAR100', 'MNIST' and 'CUB200'
    get_benchmark returns None, and for a strategy name other than
    'JOINT', 'NAIVE', 'EWC', 'LWF', 'SI' and 'ICARL' get_strategy returns
    None; both return normally, and the world (the log included) is as
    it was. *)
Theorem unknown_names_resolve_to_None (self : Experiment) (a : Args) (w : World S) :
  (dataset a <> "CIFAR100"%string -> dataset a <> "MNIST"%string ->
   dataset a <> "CUB200"%string ->
     get_benchmark a w = (Ok None, w)) /\
  (strategy_name a <> "JOINT"%string -> strategy_name a <> "NAIVE"%string ->
   strategy_name a <> "EWC"%string -> strategy_name a <> "LWF"%string ->
   strategy_name a <> "SI"%string -> strategy_name a <> "ICARL"%string ->
     get_strategy self a w = (Ok None, w)).
Proof.
  split; intros.
  - apply get_benchmark_unknown. unfold known_dataset.
    rewrite !neq_eqb by assumption. reflexivity.
  - apply get_strategy_unknown. unfold known_strategy.
    rewrite !neq_eqb by assumption. reflexivity.
Qed.

End Dispatch.

(** ** The constructor *)

Section Init.

Context {S : Type} (F : Framework S).

Lemma get_benchmark_pure (a : Args) (w1 w2 : World S) (ob : option Benchmark) :
  get_benchmark a w1 = (Ok ob, w1) -> get_benchmark a w2 = (Ok ob, w2).
Proof.
  unfold get_benchmark, ret.
  repeat match goal with |- context [if ?b then _ else _] => destruct b end;
    intros [= <-]; reflexivity.
Qed.

Lemma get_strategy_total (self : Experiment) (a : Args) (w : World S) :
  exists st, get_strategy self a w = (Ok st, w).
Proof.
  unfold get_strategy, ret.
  repeat match goal with |- context [if ?b then _ else _] => destruct b end;
    eauto.
Qed.

(** What [__init__] does once the benchmark is resolved: the model is
    allocated before anything else can fail. *)
Lemma init_model_allocated (env : Env) (a : Args) (w : World S) (b : Benchmark) :
  get_benchmark a w = (Ok (Some b), w) ->
  store (snd (init F env a w)) =
    store w ++ [make_icarl_net F (n_classes F b) 5%Z (n_channels a)] /\
  forall self w', init F env a w = (Ok self, w') ->
    benchmark self = b /\ model self = length (store w) /\ args self = a.
Proof.
  intros Hb. unfold init, bind, log_info, emit.
  rewrite (get_benchmark_pure a w _ _ Hb).
  unfold alloc, ret, raise; simpl.
  destruct (log_file env) as [f|]; simpl.
  - destruct (can_open env f); simpl.
    + match goal with |- context [get_strategy ?s a ?w0] =>
        destruct (get_strategy_total s a w0) as [st ->] end.
      simpl. split; [reflexivity|].
      intros self w' [= <- <-]. simpl. auto.
    + split; [reflexivity|]. intros self w' [=].
  - split; [reflexivity|]. intros self w' [=].
Qed.

Lemma init_unresolved (env : Env) (a : Args) (w : World S) :
  get_benchmark a w = (Ok None, w) ->
  fst (init F env a w) = Raise (AttributeError "n_classes") /\
  store (snd (init F env a w)) = store w.
Proof.
  intros Hb. unfold init, bind, log_info, emit.
  rewrite (get_benchmark_pure a w _ _ Hb).
  unfold raise; simpl. auto.
Qed.

(** C7, as the code has it.  n_channels is 1 for 'MNIST' and 3 for
    every other name.  For the dataset names 'CIFAR100', 'MNIST' and
    'CUB200' the model is built by make_icarl_net with
    num_classes = benchmark.n_classes, n = 5 and c = n_channels, so with
    1 input channel for 'MNIST' and 3 for the other two.  For any other
    dataset name the benchmark is None, the constructor raises
    AttributeError at self.benchmark.n_classes and no model is built. *)
Theorem init_model_channels (env : Env) (a : Args) (w : World S) :
  n_channels a = (if String.eqb (dataset a) "MNIST" then 1 else 3)%Z /\
  (dataset a = "CIFAR100"%string \/ dataset a = "MNIST"%string \/
   dataset a = "CUB200"%string ->
   exists b,
     get_benchmark a w = (Ok (Some b), w) /\
     store (snd (init F env a w)) =
       store w ++ [make_icarl_net F (n_classes F b) 5%Z
                     (if String.eqb (dataset a) "MNIST" then 1 else 3)%Z] /\
     forall self w', init F env a w = (Ok self, w') ->
       benchmark self = b /\ model self = length (store w)) /\
  (dataset a <> "CIFAR100"%string -> dataset a <> "MNIST"%string ->
   dataset a <> "CUB200"%string ->
     fst (init F env a w) = Raise (AttributeError "n_classes") /\
     store (snd (init F env a w)) = store w).
Proof.
  split; [reflexivity|]. split.
  - intros Hd.
    destruct (get_benchmark_known a w) as [b Hb].
    { unfold known_dataset.
      destruct Hd as [-> | [-> | ->]]; reflexivity. }
    exists b. split; [exact Hb|].
    destruct (init_model_allocated env a w b Hb) as [Hs Hself].
    split; [exact Hs|].
    intros self w' Hi. destruct (Hself self w' Hi) as (? & ? & ?). auto.
  - intros H1 H2 H3. apply init_unresolved.
    apply get_benchmark_unknown. unfold known_dataset.
    rewrite !neq_eqb by assumption. reflexivity.
Qed.

End Init.

(** ** Laws of the monad *)

Section MonadLaws.

Context {S : Type}.

Lemma bind_ok {A B} (c : M S A) (k : A -> M S B) (w w' : World S) (a : A) :
  c w = (Ok a, w') -> bind c k w = k a w'.
Proof. unfold bind. intros ->. reflexivity. Qed.

Lemma bind_raise {A B} (c : M S A) (k : A -> M S B) (w w' : World S) (e : exn) :
  c w = (Raise e, w') -> bind c k w = (Raise e, w').
Proof. unfold bind. intros ->. reflexivity. Qed.

Lemma bind_ret {A B} (a : A) (k : A -> M S B) (w : World S) :
  bind (ret a) k w = k a w.
Proof. reflexivity. Qed.

Lemma bind_emit {B} (e : Event) (k : unit -> M S B) (w : World S) :
  bind (emit e) k w = k tt (mkWorld (store w) (fw_state w) (trace w ++ [e])).
Proof. reflexivity. Qed.

Lemma bind_log_info {B} (m : Msg) (k : unit -> M S B) (w : World S) :
  bind (log_info m) k w =
    k tt (mkWorld (store w) (fw_state w) (trace w ++ [LogInfo m])).
Proof. reflexivity. Qed.

Lemma bind_assoc {A B C} (c : M S A) (k : A -> M S B) (h : B -> M S C) (w : World S) :
  bind (bind c k) h w = bind c (fun a => bind (k a) h) w.
Proof. unfold bind. destruct (c w) as [[a|e] w']; reflexivity. Qed.

End MonadLaws.

(** ** The training loop *)

Section Run.

Context {S : Type} (F : Framework S).

Lemma call_train_spec (s : Strategy) (a : TrainArg) (w : World S) :
  exists res w',
    call_train F s a w = (Ok res, w') /\
    trace w' = trace w ++ [CallTrain s a] /\
    length (store w') = length (store w) /\
    store w' = fst (snd (strategy_train F s a (store w, fw_state w))).
Proof.
  unfold call_train.
  pose proof (train_keeps_objects F s a (store w) (fw_state w)) as Hlen.
  destruct (strategy_train F s a (store w, fw_state w)) as [res [st fs]].
  simpl in Hlen. exists res. eexists. split; [reflexivity|]. simpl. auto.
Qed.

Lemma call_eval_spec (s : Strategy) (es : list Experience) (w : World S) :
  exists r w',
    call_eval F s es w = (Ok r, w') /\
    trace w' = trace w ++ [CallEval s es r] /\
    length (store w') = length (store w).
Proof.
  unfold call_eval.
  pose proof (eval_keeps_objects F s es (store w) (fw_state w)) as Hlen.
  destruct (strategy_eval F s es (store w, fw_state w)) as [r [st fs]].
  simpl in Hlen. exists r. eexists. split; [reflexivity|]. simpl. auto.
Qed.

(** The loop with a strategy object: one block of events per
    experience, in stream order, and one result appended per block. *)
Lemma experience_loop_resolved (self : Experiment) (s : Strategy) :
  strategy self = Some s ->
  forall (exps : list Experience) (results : list Metrics) (w : World S),
  exists rs w',
    experience_loop F self exps results w = (Ok (results ++ rs), w') /\
    length rs = length exps /\
    trace w' = trace w ++
      flat_map (experience_events s (test_stream F (benchmark self))) (zip exps rs) /\
    length (store w') = length (store w).
Proof.
  intros Hs. induction exps as [|e exps IH]; intros results w.
  - exists [], w. simpl. unfold ret. rewrite !app_nil_r. auto.
  - cbn [experience_loop]. rewrite !bind_log_info. cbn [store fw_state trace].
    unfold strategy_attr. rewrite Hs, bind_ret.
    match goal with |- context [bind (call_train F s ?a) _ ?w0] =>
      destruct (call_train_spec s a w0) as (res & w1 & Hc1 & Ht1 & Hl1 & _) end.
    rewrite (bind_ok _ _ _ _ _ Hc1), !bind_log_info, bind_ret.
    cbn [store fw_state trace].
    match goal with |- context [bind (call_eval F s ?es) _ ?w0] =>
      destruct (call_eval_spec s es w0) as (r & w2 & Hc2 & Ht2 & Hl2) end.
    rewrite (bind_ok _ _ _ _ _ Hc2).
    destruct (IH (results ++ [r]) w2) as (rs & w' & -> & Hlen & Ht & Hl).
    exists (r :: rs), w'. split; [|split; [|split]].
    + rewrite <- app_assoc. reflexivity.
    + simpl. congruence.
    + rewrite Ht, Ht2. simpl. rewrite Ht1. simpl.
      rewrite <- !app_assoc. reflexivity.
    + rewrite Hl, Hl2. simpl. rewrite Hl1. reflexivity.
Qed.

(** The loop without a strategy object stops at the first experience. *)
Lemma experience_loop_unresolved (self : Experiment) (e : Experience)
    (exps : list Experience) (results : list Metrics) (w : World S) :
  strategy self = None ->
  experience_loop F self (e :: exps) results w =
    (Raise (AttributeError "train"),
     mkWorld (store w) (fw_state w)
       (trace w ++ [LogInfo (StartOfExperience (current_experience e));
                    LogInfo (CurrentClasses (classes_in_this_experience e))])).
Proof.
  intros Hs. cbn [experience_loop]. rewrite !bind_log_info.
  unfold strategy_attr. rewrite Hs. unfold bind, raise. simpl.
  rewrite <- app_assoc. reflexivity.
Qed.

(** Lines 82-83: [frozen_model] is a new object, the frozen copy of the
    model; the object behind [self.model] is not touched. *)
Lemma copy_and_freeze (self : Experiment) (m : Model) {B}
    (k : ref -> unit -> M S B) (w : World S) :
  store w !! model self = Some m ->
  bind (deepcopy (model self))
       (fun frozen_model =>
          bind (feature_extractor_requires_grad_ frozen_model false)
               (k frozen_model)) w =
  k (length (store w)) tt
    (mkWorld (store w ++ [frozen_copy m]) (fw_state w) (trace w)).
Proof.
  intros Hm. unfold deepcopy, feature_extractor_requires_grad_, load, alloc, bind.
  rewrite Hm. cbn [store fw_state trace].
  rewrite list_lookup_middle by reflexivity. cbn [store fw_state trace].
  rewrite insert_app_r_alt by lia. rewrite Nat.sub_diag. reflexivity.
Qed.

(** The last-layer step: the training of line 91 starts in a world
    where [self.model] still points to the model as it was, with the
    requires_grad flags it had, and the frozen copy sits next to it. *)
Lemma last_layer_step_spec (self : Experiment) (m : Model)
    (results : list Metrics) (w : World S) :
  store w !! model self = Some m ->
  let s := last_layer_strategy self in
  let train := train_stream F (benchmark self) in
  let test := test_stream F (benchmark self) in
  let w_train :=
    mkWorld (store w ++ [frozen_copy m]) (fw_state w)
            (trace w ++ [LogInfo (Text "JOINT TRAINING ONLY ON LAST LAYER")]) in
  store w_train !! model self = Some m /\
  exists res w1 r w',
    call_train F s (WholeStream train) w_train = (Ok res, w1) /\
    store w1 = fst (snd (strategy_train F s (WholeStream train)
                           (store w_train, fw_state w_train))) /\
    last_layer_step F self results w =
      (Ok (length (store w), results ++ [r]), w') /\
    trace w' = trace w ++ last_layer_events s train test r /\
    length (store w') = Datatypes.S (length (store w)).
Proof.
  intros Hm s train test w_train. split.
  - subst w_train. cbn [store]. rewrite lookup_app_l; [exact Hm|].
    apply lookup_lt_Some in Hm. exact Hm.
  - unfold last_layer_step. rewrite (copy_and_freeze self m _ w Hm).
    rewrite bind_log_info. cbn [store fw_state trace]. fold s train test w_train.
    destruct (call_train_spec s (WholeStream train) w_train)
      as (res & w1 & Hc1 & Ht1 & Hl1 & Hst1).
    rewrite (bind_ok _ _ _ _ _ Hc1), bind_log_info.
    match goal with |- context [bind (call_eval F s ?es) _ ?w0] =>
      destruct (call_eval_spec s es w0) as (r & w2 & Hc2 & Ht2 & Hl2) end.
    exists res, w1, r, w2. rewrite (bind_ok _ _ _ _ _ Hc2). unfold ret.
    split; [exact Hc1|]. split; [exact Hst1|]. split; [reflexivity|]. split.
    + rewrite Ht2. cbn [trace]. rewrite Ht1. subst w_train. cbn [trace].
      unfold last_layer_events. rewrite <- !app_assoc. reflexivity.
    + rewrite Hl2. cbn [store]. rewrite Hl1. subst w_train. cbn [store].
      rewrite length_app. simpl. lia.
Qed.

(** The 'JOINT' branch: five events, and None. *)
Lemma run_experiment_joint (self : Experiment) (s : Strategy) (w : World S) :
  strategy_name (args self) = "JOINT"%string ->
  strategy self = Some s ->
  exists r w',
    run_experiment F self w = (Ok tt, w') /\
    trace w' = trace w ++
      LogInfo (Text "Starting experiment...") ::
      joint_events s (train_stream F (benchmark self))
                     (test_stream F (benchmark self)) r /\
    length (store w') = length (store w).
Proof.
  intros Hn Hs. unfold run_experiment. rewrite bind_log_info, Hn.
  cbn [String.eqb Ascii.eqb Bool.eqb]. cbv iota.
  rewrite bind_log_info. cbn [store fw_state trace].
  unfold strategy_attr. rewrite Hs, bind_ret.
  match goal with |- context [bind (call_train F s ?a) _ ?w0] =>
    destruct (call_train_spec s a w0) as (res & w1 & Hc1 & Ht1 & Hl1 & _) end.
  rewrite (bind_ok _ _ _ _ _ Hc1), bind_log_info, bind_ret.
  match goal with |- context [bind (call_eval F s ?es) _ ?w0] =>
    destruct (call_eval_spec s es w0) as (r & w2 & Hc2 & Ht2 & Hl2) end.
  rewrite (bind_ok _ _ _ _ _ Hc2). unfold ret.
  exists r, w2. split; [reflexivity|]. split.
  - rewrite Ht2. cbn [trace]. rewrite Ht1. cbn [trace].
    unfold joint_events. rewrite <- !app_assoc. reflexivity.
  - rewrite Hl2. cbn [store]. rewrite Hl1. reflexivity.
Qed.

(** Any other name, with a strategy object: the loop, the last-layer
    step, and then the call of line 96, which passes two arguments to a
    method that takes one. *)
Lemma run_experiment_non_joint (self : Experiment) (s : Strategy) (w : World S) :
  strategy_name (args self) <> "JOINT"%string ->
  strategy self = Some s ->
  model self < length (store w) ->
  exists rs r w',
    run_experiment F self w =
      (Raise (TypeError "check_if_feature_extractor_is_unchanged"), w') /\
    length rs = length (train_stream F (benchmark self)) /\
    trace w' = trace w ++
      [LogInfo (Text "Starting experiment...")] ++
      flat_map (experience_events s (test_stream F (benchmark self)))
               (zip (train_stream F (benchmark self)) rs) ++
      last_layer_events (last_layer_strategy self)
        (train_stream F (benchmark self)) (test_stream F (benchmark self)) r /\
    length (store w') = Datatypes.S (length (store w)).
Proof.
  intros Hn Hs Hlive. unfold run_experiment.
  rewrite bind_log_info, (neq_eqb _ _ Hn).
  match goal with |- context [bind (experience_loop F self ?es ?rs0) _ ?w0] =>
    destruct (experience_loop_resolved self s Hs es rs0 w0)
      as (rs & w1 & Hloop & Hlen & Ht1 & Hl1) end.
  rewrite (bind_ok _ _ _ _ _ Hloop).
  cbn [store trace] in Ht1, Hl1.
  destruct (lookup_lt_is_Some_2 (store w1) (model self)) as [m Hm]; [lia|].
  destruct (last_layer_step_spec self m ([] ++ rs) w1 Hm)
    as (_ & res & w2 & r & w3 & _ & _ & Hstep & Ht3 & Hl3).
  rewrite (bind_ok _ _ _ _ _ Hstep).
  cbn [call_check_if_feature_extractor_is_unchanged].
  exists rs, r, w3. split; [reflexivity|]. split; [exact Hlen|]. split.
  - rewrite Ht3, Ht1. rewrite <- !app_assoc. reflexivity.
  - rewrite Hl3, Hl1. reflexivity.
Qed.

(** Any other name, without a strategy object, on a stream that is not
    empty: AttributeError at the first train call. *)
Lemma run_experiment_unresolved (self : Experiment) (e : Experience)
    (exps : list Experience) (w : World S) :
  strategy_name (args self) <> "JOINT"%string ->
  strategy self = None ->
  train_stream F (benchmark self) = e :: exps ->
  run_experiment F self w =
    (Raise (AttributeError "train"),
     mkWorld (store w) (fw_state w)
       (trace w ++ [LogInfo (Text "Starting experiment...");
                    LogInfo (StartOfExperience (current_experience e));
                    LogInfo (CurrentClasses (classes_in_this_experience e))])).
Proof.
  intros Hn Hs He. unfold run_experiment.
  rewrite bind_log_info, (neq_eqb _ _ Hn), He.
  erewrite bind_raise by (apply experience_loop_unresolved; exact Hs).
  cbn [store fw_state trace]. rewrite <- app_assoc. reflexivity.
Qed.

End Run.

(** The sample experiments are the ones the constructor builds. *)
Example built_naive : Sample.built "MNIST" "NAIVE" = (Ok Sample.naive, Sample.w1).
Proof. reflexivity. Qed.

Example built_joint : Sample.built "MNIST" "JOINT" = (Ok Sample.joint, Sample.w1).
Proof. reflexivity. Qed.

Example built_unknown : Sample.built "MNIST" "FOO" = (Ok Sample.unknown, Sample.w1).
Proof. reflexivity. Qed.

(** ** What run_experiment does *)

Section RunExperiment.

Context {S : Type} (F : Framework S).

Lemma outcome_messages_not_in_loop (s : Strategy) (test : list Experience)
    (ers : list (Experience * Metrics)) (ev : Event) :
  In ev (flat_map (experience_events s test) ers) ->
  ev <> unchanged_message /\ ev <> not_same_message /\
  ev <> LogInfo (Text "JOINT TRAINING ONLY ON LAST LAYER").
Proof.
  rewrite in_flat_map. intros (er & _ & Hin).
  unfold experience_events in Hin. simpl in Hin.
  repeat destruct Hin as [<- | Hin]; try contradiction;
    repeat split; discriminate.
Qed.

(** C3, as the code has it.  For every run whose strategy name is not
    'JOINT' and whose strategy object is not None, the loop visits the
    experiences of the train stream in order; for each one it calls the
    strategy's train on that experience and then the strategy's eval on
    the whole test stream, and appends the value eval returned to the
    results list: one train call and one eval call per experience, in
    that order.  run_experiment runs this loop over the benchmark's train
    stream right after its first log message. *)
Theorem loop_trains_then_evaluates (self : Experiment) (s : Strategy) :
  strategy_name (args self) <> "JOINT"%string ->
  strategy self = Some s ->
  (forall (exps : list Experience) (results : list Metrics) (w : World S),
     exists rs w',
       experience_loop F self exps results w = (Ok (results ++ rs), w') /\
       length rs = length exps /\
       trace w' = trace w ++
         flat_map (fun er =>
             [ LogInfo (StartOfExperience (current_experience (fst er)));
               LogInfo (CurrentClasses (classes_in_this_experience (fst er)));
               CallTrain s (OneExperience (fst er));
               LogInfo (Text "Training completed");
               LogInfo (Text "Computing accuracy on the whole test set");
               CallEval s (test_stream F (benchmark self)) (snd er) ])
           (zip exps rs)) /\
  (forall w : World S,
     model self < length (store w) ->
     exists rs tl,
       length rs = length (train_stream F (benchmark self)) /\
       trace (snd (run_experiment F self w)) = trace w ++
         [LogInfo (Text "Starting experiment...")] ++
         flat_map (experience_events s (test_stream F (benchmark self)))
                  (zip (train_stream F (benchmark self)) rs) ++ tl /\
       forall ev, In ev tl ->
         match ev with
         | CallTrain s' a => s' = last_layer_strategy self /\
                             a = WholeStream (train_stream F (benchmark self))
         | CallEval s' _ _ => s' = last_layer_strategy self
         | _ => True
         end).
Proof.
  intros Hn Hs. split.
  - intros exps results w.
    destruct (experience_loop_resolved F self s Hs exps results w)
      as (rs & w' & Hl & Hlen & Ht & _).
    exists rs, w'. auto.
  - intros w Hlive.
    destruct (run_experiment_non_joint F self s w Hn Hs Hlive)
      as (rs & r & w' & Hrun & Hlen & Ht & _).
    exists rs, (last_layer_events (last_layer_strategy self)
                  (train_stream F (benchmark self))
                  (test_stream F (benchmark self)) r).
    rewrite Hrun. cbn [snd]. split; [exact Hlen|]. split; [exact Ht|].
    intros ev Hin. unfold last_layer_events in Hin. simpl in Hin.
    repeat destruct Hin as [<- | Hin]; try contradiction; auto.
Qed.

(** C4, as the code has it.  With a strategy object (not None) and a
    live model: when the strategy name is 'JOINT', run_experiment logs,
    calls train once on the entire train stream, calls eval once on the
    test stream and returns None, without the loop, the copy or the
    last-layer step; when the name is not 'JOINT' it runs the loop, makes
    the copy and performs the last-layer step (train on the entire train
    stream and eval on the test stream with the new JointTraining
    strategy).  So the last-layer step is performed exactly when the name
    is not 'JOINT'. *)
Theorem last_layer_step_unless_joint (self : Experiment) (s : Strategy) (w : World S) :
  strategy self = Some s ->
  model self < length (store w) ->
  let train := train_stream F (benchmark self) in
  let test := test_stream F (benchmark self) in
  (strategy_name (args self) = "JOINT"%string ->
     exists r w',
       run_experiment F self w = (Ok tt, w') /\
       trace w' = trace w ++
         [ LogInfo (Text "Starting experiment...");
           LogInfo (Text "JOINT TRAINING - UPPER BOUND");
           CallTrain s (WholeStream train);
           LogInfo (Text "EVAL ON JOINT TRAINING");
           CallEval s test r ] /\
       length (store w') = length (store w)) /\
  (strategy_name (args self) <> "JOINT"%string ->
     exists rs r,
       length rs = length train /\
       trace (snd (run_experiment F self w)) = trace w ++
         [LogInfo (Text "Starting experiment...")] ++
         flat_map (experience_events s test) (zip train rs) ++
         [ LogInfo (Text "JOINT TRAINING ONLY ON LAST LAYER");
           CallTrain (last_layer_strategy self) (WholeStream train);
           LogInfo (Text "EVAL ON JOINT TRAINING ONLY ON LAST LAYER");
           CallEval (last_layer_strategy self) test r ] /\
       length (store (snd (run_experiment F self w))) =
         Datatypes.S (length (store w))) /\
  (exists evs,
     trace (snd (run_experiment F self w)) = trace w ++ evs /\
     (In (LogInfo (Text "JOINT TRAINING ONLY ON LAST LAYER")) evs <->
      strategy_name (args self) <> "JOINT"%string)).
Proof.
  intros Hs Hlive train test.
  assert (HJ : strategy_name (args self) = "JOINT"%string ->
     exists r w',
       run_experiment F self w = (Ok tt, w') /\
       trace w' = trace w ++
         LogInfo (Text "Starting experiment...") :: joint_events s train test r /\
       length (store w') = length (store w)).
  { intros Hn. apply run_experiment_joint; assumption. }
  assert (HN : strategy_name (args self) <> "JOINT"%string ->
     exists rs r w',
       run_experiment F self w =
         (Raise (TypeError "check_if_feature_extractor_is_unchanged"), w') /\
       length rs = length train /\
       trace w' = trace w ++
         [LogInfo (Text "Starting experiment...")] ++
         flat_map (experience_events s test) (zip train rs) ++
         last_layer_events (last_layer_strategy self) train test r /\
       length (store w') = Datatypes.S (length (store w))).
  { intros Hn. apply run_experiment_non_joint; assumption. }
  split; [exact HJ|]. split.
  - intros Hn. destruct (HN Hn) as (rs & r & w' & Hrun & Hlen & Ht & Hl).
    exists rs, r. rewrite Hrun. cbn [snd]. auto.
  - destruct (string_dec (strategy_name (args self)) "JOINT") as [Hn|Hn].
    + destruct (HJ Hn) as (r & w' & Hrun & Ht & _).
      eexists. rewrite Hrun. cbn [snd]. split; [exact Ht|].
      split; [|intros Hne; contradiction].
      unfold joint_events. simpl. intros Hin.
      repeat destruct Hin as [Hin | Hin]; try discriminate; contradiction.
    + destruct (HN Hn) as (rs & r & w' & Hrun & _ & Ht & _).
      eexists. rewrite Hrun. cbn [snd]. split; [exact Ht|].
      split; [intros _; exact Hn|]. intros _.
      apply in_or_app. right. apply in_or_app. right. left. reflexivity.
Qed.

(** C2: what the code does instead.  For every run whose strategy name
    is not 'JOINT' (with a strategy object and a live model), line 96
    calls check_if_feature_extractor_is_unchanged with two arguments
    while the method takes one: run_experiment ends with TypeError after
    the last-layer evaluation, and neither of the two outcome messages
    is logged. *)
Theorem check_call_raises_TypeError (self : Experiment) (s : Strategy) (w : World S) :
  strategy_name (args self) <> "JOINT"%string ->
  strategy self = Some s ->
  model self < length (store w) ->
  exists evs w',
    run_experiment F self w =
      (Raise (TypeError "check_if_feature_extractor_is_unchanged"), w') /\
    trace w' = trace w ++ evs /\
    ~ In unchanged_message evs /\
    ~ In not_same_message evs.
Proof.
  intros Hn Hs Hlive.
  destruct (run_experiment_non_joint F self s w Hn Hs Hlive)
    as (rs & r & w' & Hrun & _ & Ht & _).
  eexists. exists w'. split; [exact Hrun|]. split; [exact Ht|].
  split; intros Hin.
  - cbn [app In] in Hin. destruct Hin as [Hin | Hin]; [discriminate|].
    apply in_app_or in Hin. destruct Hin as [Hin | Hin].
    + apply outcome_messages_not_in_loop in Hin. tauto.
    + unfold last_layer_events in Hin. simpl in Hin.
      repeat destruct Hin as [Hin | Hin]; try discriminate; contradiction.
  - cbn [app In] in Hin. destruct Hin as [Hin | Hin]; [discriminate|].
    apply in_app_or in Hin. destruct Hin as [Hin | Hin].
    + apply outcome_messages_not_in_loop in Hin. tauto.
    + unfold last_layer_events in Hin. simpl in Hin.
      repeat destruct Hin as [Hin | Hin]; try discriminate; contradiction.
Qed.

(** C10: what the code does.  On the 'JOINT' path run_experiment
    returns None.  On the normal path it does not return: it raises
    TypeError at line 96 (the defect of C2). *)
Theorem run_experiment_return_value (self : Experiment) (s : Strategy) (w : World S) :
  strategy self = Some s ->
  model self < length (store w) ->
  (strategy_name (args self) = "JOINT"%string ->
     fst (run_experiment F self w) = Ok tt) /\
  (strategy_name (args self) <> "JOINT"%string ->
     fst (run_experiment F self w) =
       Raise (TypeError "check_if_feature_extractor_is_unchanged")).
Proof.
  intros Hs Hlive. split; intros Hn.
  - destruct (run_experiment_joint F self s w Hn Hs) as (r & w' & -> & _).
    reflexivity.
  - destruct (run_experiment_non_joint F self s w Hn Hs Hlive)
      as (rs & r & w' & -> & _).
    reflexivity.
Qed.

End RunExperiment.

(** ** The comparison of feature extractors *)

Section Comparison.

Context {S : Type}.

Lemma tensor_sum_nonneg (b : list bool) : (0 <= tensor_sum b)%Z.
Proof. induction b as [|[] b IH]; simpl; lia. Qed.

Lemma zip_with_ne_none_differs (l1 l2 : list spec_float) :
  length l1 = length l2 ->
  (0 <? tensor_sum (zip_with_ne l1 l2))%Z = false <->
  Forall2 (fun x y => SFeqb x y = true) l1 l2.
Proof.
  revert l2. induction l1 as [|x l1 IH]; intros [|y l2] Hlen; try discriminate.
  - simpl. split; [constructor | reflexivity].
  - simpl in Hlen. injection Hlen as Hlen. specialize (IH l2 Hlen).
    cbn [zip_with_ne tensor_sum]. unfold float_ne.
    pose proof (tensor_sum_nonneg (zip_with_ne l1 l2)) as Hpos.
    destruct (SFeqb x y) eqn:Hxy; cbn [negb].
    + rewrite Z.add_0_l. rewrite IH. split.
      * intros H. constructor; assumption.
      * intros H. inversion H; assumption.
    + split.
      * intros H. apply Z.ltb_ge in H. lia.
      * intros H. inversion H; congruence.
Qed.

(** Broadcasting a shape with itself changes nothing. *)
Lemma firstn_plus {A} (k m : nat) (l : list A) :
  firstn (k + m) l = firstn k l ++ firstn m (skipn k l).
Proof.
  revert l. induction k as [|k IH]; intros l; [reflexivity|].
  destruct l as [|x l]; simpl.
  - rewrite firstn_nil. reflexivity.
  - rewrite IH. reflexivity.
Qed.

Lemma concat_chunks {A} (k n : nat) (l : list A) :
  concat (chunks k n l) = firstn (n * k) l.
Proof.
  revert l. induction n as [|n IH]; intros l; simpl; [reflexivity|].
  rewrite IH, firstn_plus. reflexivity.
Qed.

Lemma chunks_length {A} (k n : nat) (l : list A) :
  Forall (fun c => length c <= k) (chunks k n l).
Proof.
  revert l. induction n as [|n IH]; intros l; simpl; constructor.
  - rewrite length_firstn. lia.
  - apply IH.
Qed.

Lemma expand_same (s : list nat) (l : list spec_float) :
  length l <= numel s -> expand s s l = l.
Proof.
  revert l. induction s as [|d s IH]; intros l Hl; [reflexivity|].
  cbn [expand]. rewrite Nat.eqb_refl.
  assert (H : map (expand s s) (chunks (numel s) d l) = chunks (numel s) d l).
  { pose proof (chunks_length (numel s) d l) as Hc.
    induction Hc as [|c cs Hlen _ IHc]; [reflexivity|].
    simpl. rewrite IH by exact Hlen. rewrite IHc. reflexivity. }
  rewrite H, concat_chunks. apply firstn_all2. exact Hl.
Qed.

Lemma chunks_Forall2 {A B} (R : A -> B -> Prop) (k n : nat)
    (l1 : list A) (l2 : list B) :
  Forall2 R l1 l2 -> Forall2 (Forall2 R) (chunks k n l1) (chunks k n l2).
Proof.
  revert l1 l2. induction n as [|n IH]; intros l1 l2 H; simpl; constructor.
  - apply Forall2_take. exact H.
  - apply IH. apply Forall2_drop. exact H.
Qed.

Lemma concat_Forall2 {A B} (R : A -> B -> Prop)
    (ls1 : list (list A)) (ls2 : list (list B)) :
  Forall2 (Forall2 R) ls1 ls2 -> Forall2 R (concat ls1) (concat ls2).
Proof.
  induction 1; simpl; [constructor|]. apply Forall2_app; assumption.
Qed.

(** Expansion treats two tensors of one shape alike. *)
Lemma expand_Forall2 (R : spec_float -> spec_float -> Prop) (src tgt : list nat)
    (l1 l2 : list spec_float) :
  Forall2 R l1 l2 -> Forall2 R (expand src tgt l1) (expand src tgt l2).
Proof.
  revert tgt l1 l2. induction src as [|d src IH]; intros tgt l1 l2 H; [exact H|].
  destruct tgt as [|d' tgt]; [exact H|]. cbn [expand].
  assert (Hrows : Forall2 (Forall2 R)
            (map (expand src tgt) (chunks (numel src) d l1))
            (map (expand src tgt) (chunks (numel src) d l2))).
  { pose proof (chunks_Forall2 R (numel src) d l1 l2 H) as Hc.
    induction Hc; simpl; constructor; auto. }
  destruct (Nat.eqb d d').
  - apply concat_Forall2. exact Hrows.
  - apply concat_Forall2. induction d'; simpl; constructor; auto.
    apply concat_Forall2. exact Hrows.
Qed.

Lemma pad_shape_same (s : list nat) : pad_shape (length s) s = s.
Proof. unfold pad_shape. rewrite Nat.sub_diag. reflexivity. Qed.

Lemma broadcast_dims_same (s : list nat) : broadcast_dims s s = Some s.
Proof.
  induction s as [|d s IH]; [reflexivity|].
  simpl. unfold broadcast_dim. rewrite Nat.eqb_refl, IH. reflexivity.
Qed.

Lemma broadcast_shapes_same (s : list nat) : broadcast_shapes s s = Some s.
Proof.
  unfold broadcast_shapes. rewrite Nat.max_id, pad_shape_same.
  apply broadcast_dims_same.
Qed.

(** Two element-wise equal tensors pass the test of line 103. *)
Lemma pair_passes_if_equal (t1 t2 : Tensor) :
  elementwise_equal t1 t2 ->
  exists d, tensor_ne t1 t2 = Ok d /\ (0 <? tensor_sum d)%Z = false.
Proof.
  intros [Hs Hall]. unfold tensor_ne, expand_to.
  rewrite Hs, broadcast_shapes_same, pad_shape_same.
  eexists. split; [reflexivity|].
  pose proof (expand_Forall2 _ (shape t2) (shape t2) _ _ Hall) as He.
  apply zip_with_ne_none_differs; [|exact He].
  apply (Forall2_length _ _ _ He).
Qed.

(** For two tensors of one shape, passing the test means being
    element-wise equal. *)
Lemma pair_equal_if_passes (t1 t2 : Tensor) (d : list bool) :
  same_shape t1 t2 ->
  tensor_ne t1 t2 = Ok d -> (0 <? tensor_sum d)%Z = false ->
  elementwise_equal t1 t2.
Proof.
  intros (Hw1 & Hw2 & Hs). unfold well_formed in Hw1, Hw2.
  unfold tensor_ne, expand_to.
  rewrite Hs, broadcast_shapes_same, pad_shape_same.
  rewrite Hs in Hw1.
  rewrite !expand_same by lia.
  intros [= <-] Hsum. split; [exact Hs|].
  apply zip_with_ne_none_differs; [congruence | exact Hsum].
Qed.

(** Tensors of one shape are compared position by position. *)
Lemma tensor_ne_same_shape (t1 t2 : Tensor) :
  same_shape t1 t2 ->
  tensor_ne t1 t2 = Ok (zip_with_ne (elems t1) (elems t2)).
Proof.
  intros (Hw1 & Hw2 & Hs). unfold well_formed in Hw1, Hw2.
  unfold tensor_ne, expand_to.
  rewrite Hs, broadcast_shapes_same, pad_shape_same.
  rewrite Hs in Hw1. rewrite !expand_same by lia. reflexivity.
Qed.

(** Shapes (2,3) and (3,2) do not broadcast although both tensors hold
    six elements; shapes (2,2) and (2,) do, the second tensor being
    repeated along the first dimension; so do (3,1) and (1,2). *)
Example ne_shapes_2x3_3x2 :
  tensor_ne (mkTensor [2; 3] (repeat Sample.one 6))
            (mkTensor [3; 2] (repeat Sample.one 6)) =
    Raise (RuntimeError "The size of tensor a must match the size of tensor b").
Proof. reflexivity. Qed.

Example ne_shapes_2x2_2 :
  tensor_ne (mkTensor [2; 2] [Sample.one; Sample.two; Sample.one; Sample.two])
            (mkTensor [2] [Sample.one; Sample.two]) =
    Ok [false; false; false; false] /\
  tensor_ne (mkTensor [2; 2] [Sample.one; Sample.two; Sample.two; Sample.one])
            (mkTensor [2] [Sample.one; Sample.two]) =
    Ok [false; false; true; true].
Proof. split; reflexivity. Qed.

Example ne_shapes_3x1_1x2 :
  tensor_ne (mkTensor [3; 1] [Sample.one; Sample.two; Sample.one])
            (mkTensor [1; 2] [Sample.one; Sample.two]) =
    Ok [false; true; true; false; false; true].
Proof. reflexivity. Qed.

(** Two tensors of one shape never make torch raise. *)
Lemma same_shape_compares (t1 t2 : Tensor) :
  shape t1 = shape t2 -> exists d, tensor_ne t1 t2 = Ok d.
Proof.
  intros Hs. unfold tensor_ne. rewrite Hs, broadcast_shapes_same. eauto.
Qed.

Lemma check_param_pairs_true_if (ps : list (Param * Param)) :
  Forall (fun pp => elementwise_equal (data (fst pp)) (data (snd pp))) ps ->
  check_param_pairs ps = Ok true.
Proof.
  induction 1 as [|[p1 p2] ps Hp _ IH]; [reflexivity|].
  cbn [check_param_pairs]. cbn [fst snd] in Hp.
  destruct (pair_passes_if_equal _ _ Hp) as (d & -> & ->). exact IH.
Qed.

Lemma check_param_pairs_true_only_if (ps : list (Param * Param)) :
  Forall (fun pp => same_shape (data (fst pp)) (data (snd pp))) ps ->
  check_param_pairs ps = Ok true ->
  Forall (fun pp => elementwise_equal (data (fst pp)) (data (snd pp))) ps.
Proof.
  induction 1 as [|[p1 p2] ps Hp _ IH]; [constructor|].
  cbn [check_param_pairs]. cbn [fst snd] in Hp. intros H.
  destruct (tensor_ne (data p1) (data p2)) as [d|e] eqn:Hd; [|discriminate].
  destruct (0 <? tensor_sum d)%Z eqn:Hs; [discriminate|].
  constructor; [|apply IH; exact H].
  exact (pair_equal_if_passes _ _ d Hp Hd Hs).
Qed.

Lemma SFeqb_refl (x : spec_float) : is_nan x = false -> SFeqb x x = true.
Proof.
  unfold SFeqb. destruct x as [s|s| |s m e]; simpl; try discriminate; intros _.
  - reflexivity.
  - destruct s; reflexivity.
  - rewrite Z.compare_refl, Pos.compare_cont_refl. destruct s; reflexivity.
Qed.

Lemma elementwise_equal_refl (t : Tensor) :
  Forall (fun x => is_nan x = false) (elems t) -> elementwise_equal t t.
Proof.
  intros Ht. split; [reflexivity|].
  induction Ht; constructor; auto using SFeqb_refl.
Qed.

Lemma same_data_pairs_equal (l1 l2 : list Param) :
  map data l2 = map data l1 ->
  Forall (fun p => Forall (fun x => is_nan x = false) (elems (data p))) l1 ->
  Forall (fun pp => elementwise_equal (data (fst pp)) (data (snd pp))) (zip l1 l2).
Proof.
  revert l2. induction l1 as [|p1 l1 IH]; intros [|p2 l2] Hd Hn;
    try discriminate; try constructor.
  - cbn [fst snd]. simpl in Hd. injection Hd as Hp _. rewrite Hp.
    inversion Hn; subst. apply elementwise_equal_refl. assumption.
  - simpl in Hd. injection Hd as _ Hl. inversion Hn; subst. apply IH; assumption.
Qed.

(** C9, as the code has it.  The method returns True if every pair of
    parameters at the same position of the two feature extractors'
    parameter sequences, up to the length of the shorter one, is
    element-wise equal (same shape, IEEE-equal values); and when the two
    tensors of every such pair have the same shape (and, as every tensor
    torch builds, as many elements as the shape says), it returns True
    only if every pair is element-wise equal.  Comparing a feature
    extractor with a copy holding the same parameter data returns True
    provided no parameter element is a NaN. *)
Theorem check_true_iff_pairs_equal (self : Experiment) (frozen_model : ref)
    (w : World S) (m1 m2 : Model) :
  store w !! model self = Some m1 ->
  store w !! frozen_model = Some m2 ->
  let pairs := zip (parameters (feature_extractor m1))
                   (parameters (feature_extractor m2)) in
  (Forall (fun pp => shape (data (fst pp)) = shape (data (snd pp)) /\
                     Forall2 (fun x y => SFeqb x y = true)
                             (elems (data (fst pp))) (elems (data (snd pp))))
          pairs ->
   check_if_feature_extractor_is_unchanged self frozen_model w = (Ok true, w)) /\
  (Forall (fun pp => length (elems (data (fst pp))) = numel (shape (data (fst pp))) /\
                     length (elems (data (snd pp))) = numel (shape (data (snd pp))) /\
                     shape (data (fst pp)) = shape (data (snd pp)))
          pairs ->
   check_if_feature_extractor_is_unchanged self frozen_model w = (Ok true, w) ->
   Forall (fun pp => shape (data (fst pp)) = shape (data (snd pp)) /\
                     Forall2 (fun x y => SFeqb x y = true)
                             (elems (data (fst pp))) (elems (data (snd pp))))
          pairs) /\
  (map data (parameters (feature_extractor m2)) =
     map data (parameters (feature_extractor m1)) ->
   nan_free (feature_extractor m1) ->
   check_if_feature_extractor_is_unchanged self frozen_model w = (Ok true, w)).
Proof.
  intros H1 H2 pairs.
  assert (Hrun : check_if_feature_extractor_is_unchanged self frozen_model w =
            (check_param_pairs pairs, w)).
  { unfold check_if_feature_extractor_is_unchanged, bind, load.
    rewrite H1, H2. reflexivity. }
  rewrite Hrun. split; [|split].
  - intros Heq. f_equal. apply check_param_pairs_true_if. exact Heq.
  - intros Hshape [= Hc]. apply check_param_pairs_true_only_if; [exact Hshape|].
    exact Hc.
  - intros Hd Hn. f_equal. apply check_param_pairs_true_if.
    apply same_data_pairs_equal; assumption.
Qed.

End Comparison.

(** ** The properties on the sample inputs *)

(** C1: what the code does.  Lines 82-83 freeze the feature extractor
    of the deep copy; the strategy of line 84 trains [self.model], whose
    feature extractor still requires gradients.  On the sample run the
    last-layer step changes the feature extractor of the live model
    (reference 0), while the frozen copy (reference 1) keeps the old
    values. *)
Theorem last_layer_step_changes_feature_extractor :
  let before := Sample.w1 in
  let after := snd (last_layer_step Sample.framework Sample.naive [] Sample.w1) in
  strategy_model (last_layer_strategy Sample.naive) = model Sample.naive /\
  model Sample.naive = 0 /\
  feature_extractor <$> store before !! 0 =
    Some (mkModule [mkParam (Sample.vec [Sample.one]) true]) /\
  feature_extractor <$> store after !! 0 =
    Some (mkModule [mkParam (Sample.vec [SFopp Sample.one]) true]) /\
  feature_extractor <$> store after !! 1 =
    Some (mkModule [mkParam (Sample.vec [Sample.one]) false]) /\
  SFeqb (SFopp Sample.one) Sample.one = false.
Proof. vm_compute. repeat split; reflexivity. Qed.

(** The same on every input: the training of line 91 is given the live
    model, and starts in a store where that model is as it was before
    the copy, requires_grad flags included; the frozen parameters are
    those of another object. *)
Lemma last_layer_training_sees_unfrozen_model {S : Type} (F : Framework S)
    (self : Experiment) (m : Model) (results : list Metrics) (w : World S) :
  store w !! model self = Some m ->
  strategy_model (last_layer_strategy self) = model self /\
  (store w ++ [frozen_copy m]) !! model self = Some m /\
  (store w ++ [frozen_copy m]) !! length (store w) = Some (frozen_copy m) /\
  model self <> length (store w).
Proof.
  intros Hm. split; [reflexivity|]. split; [|split].
  - apply (last_layer_step_spec F self m results w Hm).
  - apply list_lookup_middle. reflexivity.
  - apply lookup_lt_Some in Hm. lia.
Qed.

(** C2 on the sample run. *)
Lemma check_call_raises_TypeError_witness :
  exists evs w',
    run_experiment Sample.framework Sample.naive Sample.w1 =
      (Raise (TypeError "check_if_feature_extractor_is_unchanged"), w') /\
    trace w' = trace Sample.w1 ++ evs /\
    ~ In unchanged_message evs /\
    ~ In not_same_message evs.
Proof.
  apply (check_call_raises_TypeError Sample.framework Sample.naive
           (Naive (base_args (Sample.mnist_experiment "NAIVE" None)
                             (Sample.sample_args "MNIST" "NAIVE")))
           Sample.w1).
  - vm_compute. discriminate.
  - reflexivity.
  - vm_compute. lia.
Defined.

(** C10 on the sample runs. *)
Lemma run_experiment_return_value_witness :
  fst (run_experiment Sample.framework Sample.joint Sample.w1) = Ok tt /\
  fst (run_experiment Sample.framework Sample.naive Sample.w1) =
    Raise (TypeError "check_if_feature_extractor_is_unchanged").
Proof.
  split.
  - apply (proj1 (run_experiment_return_value Sample.framework Sample.joint
                    (JointTraining (base_args (Sample.mnist_experiment "JOINT" None)
                                              (Sample.sample_args "MNIST" "JOINT")))
                    Sample.w1 eq_refl ltac:(vm_compute; lia))).
    reflexivity.
  - apply (proj2 (run_experiment_return_value Sample.framework Sample.naive
                    (Naive (base_args (Sample.mnist_experiment "NAIVE" None)
                                      (Sample.sample_args "MNIST" "NAIVE")))
                    Sample.w1 eq_refl ltac:(vm_compute; lia))).
    vm_compute. discriminate.
Defined.

(** C3 fails for a name that is no strategy: with args.strategy = 'FOO'
    the strategy is None, and on a train stream of two experiences the
    run stops at the first train call; nothing is trained or evaluated. *)
Lemma unknown_strategy_never_trains :
  strategy_name (args Sample.unknown) <> "JOINT"%string /\
  length (train_stream Sample.framework (benchmark Sample.unknown)) = 2 /\
  run_experiment Sample.framework Sample.unknown Sample.w1 =
    (Raise (AttributeError "train"),
     mkWorld (store Sample.w1) tt
       [ LogInfo (Text "device: cpu");
         LogInfo (Text "Starting experiment...");
         LogInfo (StartOfExperience 0);
         LogInfo (CurrentClasses [0%Z]) ]).
Proof. vm_compute. repeat split. discriminate. Qed.

(** C3 on the sample run. *)
Lemma loop_trains_then_evaluates_witness :
  exists rs tl,
    length rs = 2 /\
    trace (snd (run_experiment Sample.framework Sample.naive Sample.w1)) =
      trace Sample.w1 ++
      [LogInfo (Text "Starting experiment...")] ++
      flat_map (experience_events
                  (Naive (base_args (Sample.mnist_experiment "NAIVE" None)
                                    (Sample.sample_args "MNIST" "NAIVE")))
                  (Sample.stream 2))
               (zip (Sample.stream 2) rs) ++ tl /\
    forall ev, In ev tl ->
      match ev with
      | CallTrain s' a => s' = last_layer_strategy Sample.naive /\
                          a = WholeStream (Sample.stream 2)
      | CallEval s' _ _ => s' = last_layer_strategy Sample.naive
      | _ => True
      end.
Proof.
  apply (proj2 (loop_trains_then_evaluates Sample.framework Sample.naive
                  (Naive (base_args (Sample.mnist_experiment "NAIVE" None)
                                    (Sample.sample_args "MNIST" "NAIVE")))
                  ltac:(vm_compute; discriminate) eq_refl) Sample.w1).
  vm_compute. lia.
Defined.

(** C4 fails for a name that is no strategy: 'FOO' is not 'JOINT', yet
    the run stops in the loop; there is no copy and no last-layer step. *)
Lemma unknown_strategy_skips_last_layer_step :
  let w' := snd (run_experiment Sample.framework Sample.unknown Sample.w1) in
  strategy_name (args Sample.unknown) <> "JOINT"%string /\
  fst (run_experiment Sample.framework Sample.unknown Sample.w1) =
    Raise (AttributeError "train") /\
  ~ In (LogInfo (Text "JOINT TRAINING ONLY ON LAST LAYER")) (trace w') /\
  store w' = store Sample.w1.
Proof.
  vm_compute. repeat split; try discriminate.
  intros H. repeat destruct H as [H | H]; try discriminate; contradiction.
Qed.

(** C4 on the sample runs. *)
Lemma last_layer_step_unless_joint_witness :
  (exists r w',
     run_experiment Sample.framework Sample.joint Sample.w1 = (Ok tt, w') /\
     trace w' = trace Sample.w1 ++
       [ LogInfo (Text "Starting experiment...");
         LogInfo (Text "JOINT TRAINING - UPPER BOUND");
         CallTrain (JointTraining (base_args (Sample.mnist_experiment "JOINT" None)
                                             (Sample.sample_args "MNIST" "JOINT")))
                   (WholeStream (Sample.stream 2));
         LogInfo (Text "EVAL ON JOINT TRAINING");
         CallEval (JointTraining (base_args (Sample.mnist_experiment "JOINT" None)
                                            (Sample.sample_args "MNIST" "JOINT")))
                  (Sample.stream 2) r ] /\
     length (store w') = length (store Sample.w1)) /\
  length (store (snd (run_experiment Sample.framework Sample.naive Sample.w1))) = 2.
Proof.
  split.
  - apply (proj1 (last_layer_step_unless_joint Sample.framework Sample.joint
                    (JointTraining (base_args (Sample.mnist_experiment "JOINT" None)
                                              (Sample.sample_args "MNIST" "JOINT")))
                    Sample.w1 eq_refl ltac:(vm_compute; lia))).
    reflexivity.
  - destruct (proj1 (proj2 (last_layer_step_unless_joint Sample.framework Sample.naive
                    (Naive (base_args (Sample.mnist_experiment "NAIVE" None)
                                      (Sample.sample_args "MNIST" "NAIVE")))
                    Sample.w1 eq_refl ltac:(vm_compute; lia)))
                    ltac:(vm_compute; discriminate)) as (rs & r & _ & _ & Hl).
    exact Hl.
Defined.

(** C5 on the three dataset names. *)
Lemma get_benchmark_resolves_witness :
  get_benchmark (Sample.sample_args "CIFAR100" "NAIVE") Sample.w0 =
    (Ok (Some (SplitCIFAR100 2)), Sample.w0) /\
  get_benchmark (Sample.sample_args "MNIST" "NAIVE") Sample.w0 =
    (Ok (Some (SplitMNIST 2)), Sample.w0) /\
  get_benchmark (Sample.sample_args "CUB200" "NAIVE") Sample.w0 =
    (Ok (Some (SplitCUB200 2)), Sample.w0).
Proof.
  split; [|split].
  - apply (proj1 (get_benchmark_resolves
                    (Sample.sample_args "CIFAR100" "NAIVE") Sample.w0)).
    reflexivity.
  - apply (proj1 (proj2 (get_benchmark_resolves
                           (Sample.sample_args "MNIST" "NAIVE") Sample.w0))).
    reflexivity.
  - apply (proj2 (proj2 (get_benchmark_resolves
                           (Sample.sample_args "CUB200" "NAIVE") Sample.w0))).
    reflexivity.
Defined.

(** C6 on the six strategy names. *)
Lemma get_strategy_resolves_witness :
  let self := Sample.mnist_experiment "" None in
  let run st := get_strategy self (Sample.sample_args "MNIST" st) Sample.w1 in
  let base := base_args self (Sample.sample_args "MNIST" "") in
  run "JOINT"%string = (Ok (Some (JointTraining base)), Sample.w1) /\
  run "NAIVE"%string = (Ok (Some (Naive base)), Sample.w1) /\
  run "EWC"%string =
    (Ok (Some (EWC base Sample.one "separate" None false)), Sample.w1) /\
  run "LWF"%string = (Ok (Some (LwF base Sample.one Sample.one)), Sample.w1) /\
  run "SI"%string =
    (Ok (Some (SynapticIntelligence base Sample.one Sample.one)), Sample.w1) /\
  (exists ic, run "ICARL"%string = (Ok (Some (ICaRL ic)), Sample.w1) /\
     ic_feature_extractor ic = FeatureExtractorOf 0 /\
     memory_size ic = 2000%Z /\ fixed_memory ic = true).
Proof.
  intros self run base.
  pose proof (fun st => get_strategy_resolves self
                          (Sample.sample_args "MNIST" st) Sample.w1) as H.
  cbv zeta in H.
  split; [|split; [|split; [|split; [|split]]]].
  - apply (proj1 (H "JOINT"%string)). reflexivity.
  - apply (proj1 (proj2 (H "NAIVE"%string))). reflexivity.
  - apply (proj1 (proj2 (proj2 (H "EWC"%string)))). reflexivity.
  - apply (proj1 (proj2 (proj2 (proj2 (H "LWF"%string))))). reflexivity.
  - apply (proj1 (proj2 (proj2 (proj2 (proj2 (H "SI"%string)))))). reflexivity.
  - destruct (proj2 (proj2 (proj2 (proj2 (proj2 (H "ICARL"%string))))) eq_refl)
      as (ic & Hrun & Hfe & _ & _ & _ & _ & _ & _ & _ & _ & Hmem & Hfix & _).
    exists ic. split; [exact Hrun|]. split; [exact Hfe|]. split; assumption.
Defined.

(** C8 on the name 'FOO'. *)
Lemma unknown_names_resolve_to_None_witness :
  get_benchmark (Sample.sample_args "FOO" "FOO") Sample.w0 = (Ok None, Sample.w0) /\
  get_strategy Sample.unknown (Sample.sample_args "FOO" "FOO") Sample.w1 =
    (Ok None, Sample.w1).
Proof.
  split.
  - apply (proj1 (unknown_names_resolve_to_None Sample.unknown
                    (Sample.sample_args "FOO" "FOO") Sample.w0));
      vm_compute; discriminate.
  - apply (proj2 (unknown_names_resolve_to_None Sample.unknown
                    (Sample.sample_args "FOO" "FOO") Sample.w1));
      vm_compute; discriminate.
Defined.

(** C7 fails for a name that is no dataset: 'FOO' is not 'MNIST', yet
    no model with 3 channels is built; the constructor raises at
    self.benchmark.n_classes and the store stays empty. *)
Lemma unknown_dataset_builds_no_model :
  dataset (Sample.sample_args "FOO" "NAIVE") <> "MNIST"%string /\
  Sample.built "FOO" "NAIVE" =
    (Raise (AttributeError "n_classes"),
     mkWorld [] tt [LogInfo (Text "device: cpu")]).
Proof. vm_compute. split; [discriminate | reflexivity]. Qed.

(** C7 on 'MNIST', 'CIFAR100' and 'FOO'. *)
Lemma init_model_channels_witness :
  store (snd (Sample.built "MNIST" "NAIVE")) = [Sample.net 10 5 1] /\
  store (snd (Sample.built "CIFAR100" "NAIVE")) = [Sample.net 100 5 3] /\
  fst (Sample.built "FOO" "NAIVE") = Raise (AttributeError "n_classes").
Proof.
  split; [|split].
  - destruct (proj1 (proj2 (init_model_channels Sample.framework Sample.env
                              (Sample.sample_args "MNIST" "NAIVE") Sample.w0))
                (or_intror (or_introl eq_refl))) as (b & Hb & Hst & _).
    injection Hb as <-. exact Hst.
  - destruct (proj1 (proj2 (init_model_channels Sample.framework Sample.env
                              (Sample.sample_args "CIFAR100" "NAIVE") Sample.w0))
                (or_introl eq_refl)) as (b & Hb & Hst & _).
    injection Hb as <-. exact Hst.
  - apply (proj2 (proj2 (init_model_channels Sample.framework Sample.env
                           (Sample.sample_args "FOO" "NAIVE") Sample.w0)));
      vm_compute; discriminate.
Defined.

(** C9 fails on NaN and on shapes that broadcast.  The deep copy of a
    model whose feature extractor holds a NaN is identical to it, and
    the method returns False.  A parameter of shape (1,) and one of
    shape (3,) holding the same value are not element-wise equal, and
    the method returns True. *)
Lemma nan_copy_compares_unequal :
  let w := mkWorld [Sample.nan_model; Sample.nan_model] tt [] in
  (deepcopy (model Sample.naive) Sample.w_nan = (Ok 1, w) /\
   store w !! 1 = store w !! model Sample.naive /\
   check_if_feature_extractor_is_unchanged Sample.naive 1 w = (Ok false, w)) /\
  (check_if_feature_extractor_is_unchanged Sample.naive 1 Sample.w_broadcast =
     (Ok true, Sample.w_broadcast) /\
   ~ elementwise_equal (Sample.vec [Sample.one])
                       (Sample.vec [Sample.one; Sample.one; Sample.one])).
Proof.
  split.
  - vm_compute. repeat split; reflexivity.
  - split; [vm_compute; reflexivity|]. intros [Hs _]. discriminate.
Qed.

(** C9 on the sample model and its frozen copy. *)
Lemma check_true_iff_pairs_equal_witness :
  let w := Sample.w_copied in
  check_if_feature_extractor_is_unchanged Sample.naive 1 w = (Ok true, w) /\
  Forall (fun pp => shape (data (fst pp)) = shape (data (snd pp)) /\
                    Forall2 (fun x y => SFeqb x y = true)
                            (elems (data (fst pp))) (elems (data (snd pp))))
         (zip (parameters (feature_extractor (Sample.net 10 5 1)))
              (parameters (feature_extractor (frozen_copy (Sample.net 10 5 1))))).
Proof.
  intros w.
  pose proof (check_true_iff_pairs_equal Sample.naive 1 w
                (Sample.net 10 5 1) (frozen_copy (Sample.net 10 5 1))
                eq_refl eq_refl) as (Hif & Honly & Hcopy).
  assert (Hrun : check_if_feature_extractor_is_unchanged Sample.naive 1 w =
                   (Ok true, w)).
  { apply Hcopy; [reflexivity|]. repeat constructor. }
  assert (Hpairs := Honly ltac:(repeat constructor) Hrun).
  split; [apply Hif; exact Hpairs | exact Hpairs].
Defined.

(** * Further properties *)

(** ** The constructor, on every path *)

Section Constructor.

Context {S : Type} (F : Framework S).

Lemma get_benchmark_total (a : Args) (w : World S) :
  exists ob, get_benchmark a w = (Ok ob, w) /\
    (ob = None <-> known_dataset (dataset a) = false).
Proof.
  destruct (known_dataset (dataset a)) eqn:Hk.
  - destruct (get_benchmark_known a w Hk) as [b Hb].
    exists (Some b). split; [exact Hb|]. split; discriminate.
  - exists None. split; [apply get_benchmark_unknown; exact Hk|]. tauto.
Qed.

Lemma get_strategy_model (self : Experiment) (a : Args) (w w' : World S)
    (s : Strategy) :
  get_strategy self a w = (Ok (Some s), w') -> strategy_model s = model self.
Proof.
  unfold get_strategy, ret.
  repeat match goal with |- context [if ?b then _ else _] => destruct b end;
    intros [= <- _]; reflexivity.
Qed.

Lemma get_strategy_None_iff (self : Experiment) (a : Args) (w w' : World S)
    (st : option Strategy) :
  get_strategy self a w = (Ok st, w') ->
  (st = None <-> known_strategy (strategy_name a) = false).
Proof.
  intros H. destruct (known_strategy (strategy_name a)) eqn:Hk.
  - destruct (get_strategy_known self a w Hk) as [s Hs].
    rewrite Hs in H. injection H as <- _. split; discriminate.
  - rewrite (get_strategy_unknown self a w Hk) in H. injection H as <- _. tauto.
Qed.

(** What a returned Experiment looks like. *)
Lemma init_returns (env : Env) (a : Args) (w w' : World S) (self : Experiment) :
  init F env a w = (Ok self, w') ->
  exists b self0,
    get_benchmark a w = (Ok (Some b), w) /\
    (exists f, log_file env = Some f /\ can_open env f = true) /\
    args self = a /\
    benchmark self = b /\
    model self = length (store w) /\
    model self0 = model self /\
    get_strategy self0 a w' = (Ok (strategy self), w') /\
    optimizer self = Adam (length (store w)) (learning_rate a) /\
    ep_benchmark (eval_plugin self) = b /\
    scheduler self = None /\
    plugins self = None /\
    store w' = store w ++ [make_icarl_net F (n_classes F b) 5%Z (n_channels a)] /\
    fw_state w' = fw_state w.
Proof.
  unfold init. rewrite bind_log_info.
  match goal with |- context [bind (get_benchmark a) _ ?w0] =>
    destruct (get_benchmark_total a w0) as (ob & Hb & _) end.
  rewrite (bind_ok _ _ _ _ _ Hb).
  destruct ob as [b|]; [|unfold bind, raise; discriminate].
  rewrite bind_ret. unfold alloc at 1. unfold bind at 1. cbn [store fw_state trace].
  destruct (log_file env) as [f|] eqn:Hf; [|unfold bind, raise; discriminate].
  rewrite bind_ret.
  destruct (can_open env f) eqn:Ho; [|unfold bind, raise; discriminate].
  rewrite bind_ret.
  match goal with |- context [bind (get_strategy ?s0 a) _ ?w0] =>
    destruct (get_strategy_total s0 a w0) as [st Hst];
    rewrite (bind_ok _ _ _ _ _ Hst); unfold ret; intros [= <- <-];
    exists b, s0 end.
  cbn [args benchmark model optimizer eval_plugin scheduler plugins strategy
       ep_benchmark store fw_state].
  repeat split; try reflexivity.
  - exact (get_benchmark_pure a _ w _ Hb).
  - eauto.
  - exact Hst.
Qed.

(** X1.  The constructor logs one message, the device, whether it returns
    or raises; the device is cuda:0 exactly when CUDA is available and
    args.cpu is not set. *)
Theorem init_logs_the_device (env : Env) (a : Args) (w : World S) :
  trace (snd (init F env a w)) =
    trace w ++
    [LogInfo (Text (if cuda_is_available env && negb (cpu a)
                    then "device: cuda:0" else "device: cpu"))].
Proof.
  assert (Hmsg : forall b : bool,
            ("device: " ++ str_device (if b then Cuda0 else CpuDevice))%string =
            if b then "device: cuda:0"%string else "device: cpu"%string).
  { intros []; reflexivity. }
  unfold init. rewrite bind_log_info, Hmsg.
  match goal with |- context [bind (get_benchmark a) _ ?w0] =>
    destruct (get_benchmark_total a w0) as (ob & Hb & _) end.
  rewrite (bind_ok _ _ _ _ _ Hb).
  destruct ob as [b|]; [|reflexivity].
  rewrite bind_ret. unfold alloc at 1. unfold bind at 1. cbn [store fw_state trace].
  destruct (log_file env) as [f|]; [|reflexivity].
  rewrite bind_ret.
  destruct (can_open env f); [|reflexivity].
  rewrite bind_ret.
  match goal with |- context [bind (get_strategy ?s0 a) _ ?w0] =>
    destruct (get_strategy_total s0 a w0) as [st Hst];
    rewrite (bind_ok _ _ _ _ _ Hst) end.
  reflexivity.
Qed.



End Constructor.

(** ** An Experiment as the constructor leaves it *)

Section Built.

Context {S : Type} (F : Framework S).

(** X3.  The experiment, its optimizer and its strategy share one model
    object, the one the constructor has just built; the strategy is None
    exactly for a strategy name get_strategy does not know. *)
Theorem init_shares_the_model (env : Env) (a : Args) (w w' : World S)
    (self : Experiment) :
  init F env a w = (Ok self, w') ->
  args self = a /\
  model self = length (store w) /\
  store w' !! model self =
    Some (make_icarl_net F (n_classes F (benchmark self)) 5%Z (n_channels a)) /\
  adam_params (optimizer self) = model self /\
  ep_benchmark (eval_plugin self) = benchmark self /\
  (forall s, strategy self = Some s -> strategy_model s = model self) /\
  (strategy self = None <->
   strategy_name a <> "JOINT"%string /\ strategy_name a <> "NAIVE"%string /\
   strategy_name a <> "EWC"%string /\ strategy_name a <> "LWF"%string /\
   strategy_name a <> "SI"%string /\ strategy_name a <> "ICARL"%string).
Proof.
  intros Hi.
  destruct (init_returns F env a w w' self Hi)
    as (b & self0 & _ & _ & Ha & Hb & Hm & Hm0 & Hst & Ho & He & _ & _ & Hs & _).
  split; [exact Ha|]. split; [exact Hm|]. split; [|split; [|split; [|split]]].
  - rewrite Hs, Hm, Hb. apply list_lookup_middle. reflexivity.
  - rewrite Ho, Hm. reflexivity.
  - rewrite He, Hb. reflexivity.
  - intros s Hs'. rewrite Hs' in Hst.
    rewrite (get_strategy_model self0 a w' w' s Hst). exact Hm0.
  - rewrite (get_strategy_None_iff self0 a w' w' _ Hst).
    unfold known_strategy. rewrite !orb_false_iff, !String.eqb_neq. tauto.
Qed.

(** X4.  Constructor and training loop together.  For the experiment the
    constructor returns: with the name 'JOINT' run_experiment returns
    None; with one of the five other known names it ends with the
    TypeError of line 96; with an unknown name it ends with
    AttributeError at the first train call when the train stream has an
    experience, and with the TypeError of line 96 when the stream is
    empty. *)
Theorem run_after_init (env : Env) (a : Args) (w w' : World S) (self : Experiment) :
  init F env a w = (Ok self, w') ->
  (strategy_name a = "JOINT"%string ->
     fst (run_experiment F self w') = Ok tt) /\
  (strategy_name a = "NAIVE"%string \/ strategy_name a = "EWC"%string \/
   strategy_name a = "LWF"%string \/ strategy_name a = "SI"%string \/
   strategy_name a = "ICARL"%string ->
     fst (run_experiment F self w') =
       Raise (TypeError "check_if_feature_extractor_is_unchanged")) /\
  (strategy_name a <> "JOINT"%string -> strategy_name a <> "NAIVE"%string ->
   strategy_name a <> "EWC"%string -> strategy_name a <> "LWF"%string ->
   strategy_name a <> "SI"%string -> strategy_name a <> "ICARL"%string ->
     fst (run_experiment F self w') =
       match train_stream F (benchmark self) with
       | [] => Raise (TypeError "check_if_feature_extractor_is_unchanged")
       | _ :: _ => Raise (AttributeError "train")
       end).
Proof.
  intros Hi.
  destruct (init_returns F env a w w' self Hi)
    as (b & self0 & _ & _ & Ha & Hb & Hm & Hm0 & Hst & _ & _ & _ & _ & Hs & _).
  assert (Hlive : model self < length (store w')).
  { rewrite Hs, Hm, length_app. simpl. lia. }
  split; [|split].
  - intros Hn.
    destruct (get_strategy_known self0 a w') as [s Hs'].
    { unfold known_strategy. rewrite Hn. reflexivity. }
    rewrite Hs' in Hst. injection Hst as Hst.
    destruct (run_experiment_joint F self s w') as (r & w2 & -> & _);
      [rewrite Ha; exact Hn | congruence | reflexivity].
  - intros Hn.
    destruct (get_strategy_known self0 a w') as [s Hs'].
    { unfold known_strategy.
      destruct Hn as [-> | [-> | [-> | [-> | ->]]]]; reflexivity. }
    rewrite Hs' in Hst. injection Hst as Hst.
    destruct (run_experiment_non_joint F self s w') as (rs & r & w2 & -> & _);
      [rewrite Ha; destruct Hn as [-> | [-> | [-> | [-> | ->]]]]; discriminate
      | congruence | exact Hlive | reflexivity].
  - intros H1 H2 H3 H4 H5 H6.
    rewrite get_strategy_unknown in Hst.
    2:{ unfold known_strategy. rewrite !neq_eqb by assumption. reflexivity. }
    injection Hst as Hst. symmetry in Hst.
    destruct (train_stream F (benchmark self)) as [|e exps] eqn:He.
    + unfold run_experiment. rewrite bind_log_info, Ha, (neq_eqb _ _ H1), He.
      cbn [experience_loop]. rewrite bind_ret.
      match goal with |- context [bind (last_layer_step F self ?rs) _ ?w0] =>
        destruct (lookup_lt_is_Some_2 (store w0) (model self)) as [m Hmm];
          [exact Hlive|];
        destruct (last_layer_step_spec F self m rs w0 Hmm)
          as (_ & res & w1 & r & w2 & _ & _ & Hstep & _) end.
      rewrite (bind_ok _ _ _ _ _ Hstep). reflexivity.
    + rewrite (run_experiment_unresolved F self e exps w'); try assumption.
      * reflexivity.
      * rewrite Ha. exact H1.
Qed.

(** X5.  The number of input channels agrees with the benchmark: whenever
    get_benchmark returns a benchmark, n_channels is 1 if it is a
    SplitMNIST and 3 otherwise, and the benchmark has args.experiences
    experiences. *)
Theorem n_channels_match_benchmark (a : Args) (w w' : World S) (b : Benchmark) :
  get_benchmark a w = (Ok (Some b), w') ->
  match b with
  | SplitMNIST n => n_channels a = 1%Z /\ n = experiences a
  | SplitCIFAR100 n | SplitCUB200 n => n_channels a = 3%Z /\ n = experiences a
  end.
Proof.
  unfold get_benchmark, n_channels, ret.
  destruct (String.eqb (dataset a) "CIFAR100") eqn:E1.
  - intros [= <- _]. apply String.eqb_eq in E1. rewrite E1. auto.
  - destruct (String.eqb (dataset a) "MNIST") eqn:E2.
    + intros [= <- _]. auto.
    + destruct (String.eqb (dataset a) "CUB200") eqn:E3; [|discriminate].
      intros [= <- _]. auto.
Qed.

End Built.

(** ** More on run_experiment *)

Section Runs.

Context {S : Type} (F : Framework S).

Lemma call_train_unfold (s : Strategy) (a : TrainArg) (w : World S) :
  call_train F s a w =
    (Ok (fst (strategy_train F s a (store w, fw_state w))),
     mkWorld (fst (snd (strategy_train F s a (store w, fw_state w))))
             (snd (snd (strategy_train F s a (store w, fw_state w))))
             (trace w ++ [CallTrain s a])).
Proof.
  unfold call_train.
  destruct (strategy_train F s a (store w, fw_state w)) as [res [st fs]].
  reflexivity.
Qed.

Lemma call_eval_unfold (s : Strategy) (es : list Experience) (w : World S) :
  call_eval F s es w =
    (Ok (fst (strategy_eval F s es (store w, fw_state w))),
     mkWorld (fst (snd (strategy_eval F s es (store w, fw_state w))))
             (snd (snd (strategy_eval F s es (store w, fw_state w))))
             (trace w ++ [CallEval s es
                            (fst (strategy_eval F s es (store w, fw_state w)))])).
Proof.
  unfold call_eval.
  destruct (strategy_eval F s es (store w, fw_state w)) as [res [st fs]].
  reflexivity.
Qed.

(** X6.  The loop threads the framework through the experiences: each eval
    runs on the store and state the train just before it left, each
    train on those the previous eval left, and the results appended are
    the values of these evals, in order. *)
Theorem loop_threads_the_state (self : Experiment) (s : Strategy) :
  strategy self = Some s ->
  forall (exps : list Experience) (results : list Metrics) (w : World S),
  exists w',
    experience_loop F self exps results w =
      (Ok (results ++
           loop_results F s (test_stream F (benchmark self)) exps
             (store w, fw_state w)), w') /\
    (store w', fw_state w') =
      loop_state F s (test_stream F (benchmark self)) exps (store w, fw_state w).
Proof.
  intros Hs. induction exps as [|e exps IH]; intros results w.
  - exists w. cbn. unfold ret. rewrite app_nil_r. auto.
  - cbn [experience_loop]. rewrite !bind_log_info. cbn [store fw_state trace].
    unfold strategy_attr. rewrite Hs, bind_ret.
    rewrite (bind_ok _ _ _ _ _ (call_train_unfold _ _ _)).
    rewrite !bind_log_info, bind_ret. cbn [store fw_state trace].
    rewrite (bind_ok _ _ _ _ _ (call_eval_unfold _ _ _)).
    cbn [store fw_state trace].
    match goal with |- context [experience_loop F self exps ?rs ?w0] =>
      destruct (IH rs w0) as (w' & Hrun & Hst) end.
    exists w'. rewrite Hrun. cbn [store fw_state] in Hst |- *.
    split.
    + rewrite <- app_assoc.
      cbn [loop_results after_experience app].
      rewrite <- !surjective_pairing. reflexivity.
    + rewrite Hst. cbn [loop_state fold_left after_experience].
      rewrite <- !surjective_pairing. reflexivity.
Qed.

(** X7.  A strategy of None goes unnoticed until the first train call: for
    a name other than 'JOINT', with no strategy object and a train stream
    that has an experience, run_experiment raises AttributeError having
    logged three messages; no model and no framework state is touched. *)
Theorem no_strategy_stops_at_first_train (self : Experiment) (e : Experience)
    (exps : list Experience) (w : World S) :
  strategy_name (args self) <> "JOINT"%string ->
  strategy self = None ->
  train_stream F (benchmark self) = e :: exps ->
  fst (run_experiment F self w) = Raise (AttributeError "train") /\
  store (snd (run_experiment F self w)) = store w /\
  fw_state (snd (run_experiment F self w)) = fw_state w /\
  trace (snd (run_experiment F self w)) =
    trace w ++ [ LogInfo (Text "Starting experiment...");
                 LogInfo (StartOfExperience (current_experience e));
                 LogInfo (CurrentClasses (classes_in_this_experience e)) ].
Proof.
  intros Hn Hs He.
  rewrite (run_experiment_unresolved F self e exps w Hn Hs He).
  repeat split.
Qed.

(** X8.  On an empty train stream the loop body never runs, so the strategy
    is not looked at: for a name other than 'JOINT' (strategy None
    included) the last-layer step is performed right after the first log
    message, and the run ends with the TypeError of line 96. *)
Theorem empty_stream_skips_the_loop (self : Experiment) (w : World S) :
  strategy_name (args self) <> "JOINT"%string ->
  train_stream F (benchmark self) = [] ->
  model self < length (store w) ->
  exists r w',
    run_experiment F self w =
      (Raise (TypeError "check_if_feature_extractor_is_unchanged"), w') /\
    trace w' = trace w ++
      [ LogInfo (Text "Starting experiment...");
        LogInfo (Text "JOINT TRAINING ONLY ON LAST LAYER");
        CallTrain (last_layer_strategy self) (WholeStream []);
        LogInfo (Text "EVAL ON JOINT TRAINING ONLY ON LAST LAYER");
        CallEval (last_layer_strategy self) (test_stream F (benchmark self)) r ] /\
    length (store w') = Datatypes.S (length (store w)).
Proof.
  intros Hn He Hlive. unfold run_experiment.
  rewrite bind_log_info, (neq_eqb _ _ Hn), He.
  cbn [experience_loop]. rewrite bind_ret.
  match goal with |- context [bind (last_layer_step F self ?rs) _ ?w0] =>
    destruct (lookup_lt_is_Some_2 (store w0) (model self)) as [m Hm];
      [exact Hlive|];
    destruct (last_layer_step_spec F self m rs w0 Hm)
      as (_ & res & w1 & r & w2 & _ & _ & Hstep & Ht & Hl) end.
  rewrite (bind_ok _ _ _ _ _ Hstep).
  exists r, w2. split; [reflexivity|]. split.
  - rewrite Ht, He. cbn [trace]. unfold last_layer_events.
    rewrite <- app_assoc. reflexivity.
  - rewrite Hl. reflexivity.
Qed.

Lemma count_events_app (p : Event -> bool) (l1 l2 : list Event) :
  count_events p (l1 ++ l2) = count_events p l1 + count_events p l2.
Proof. induction l1 as [|ev l1 IH]; simpl; [reflexivity | rewrite IH; lia]. Qed.

Lemma count_loop_events (s : Strategy) (test : list Experience)
    (exps : list Experience) (rs : list Metrics) :
  length rs = length exps ->
  count_events is_train (flat_map (experience_events s test) (zip exps rs)) =
    length exps /\
  count_events is_eval (flat_map (experience_events s test) (zip exps rs)) =
    length exps.
Proof.
  revert rs. induction exps as [|e exps IH]; intros [|r rs] Hlen;
    try discriminate; [split; reflexivity|].
  injection Hlen as Hlen. destruct (IH rs Hlen) as [Ht He].
  cbn [zip flat_map]. rewrite !count_events_app, Ht, He. split; reflexivity.
Qed.

(** X9.  How often the framework is called: a 'JOINT' run makes one train
    call and one eval call; any other run (with a strategy object) makes
    one train call and one eval call more than the train stream has
    experiences. *)
Theorem number_of_framework_calls (self : Experiment) (s : Strategy) (w : World S) :
  strategy self = Some s ->
  model self < length (store w) ->
  exists evs,
    trace (snd (run_experiment F self w)) = trace w ++ evs /\
    count_events is_train evs =
      (if String.eqb (strategy_name (args self)) "JOINT" then 1
       else Datatypes.S (length (train_stream F (benchmark self)))) /\
    count_events is_eval evs =
      (if String.eqb (strategy_name (args self)) "JOINT" then 1
       else Datatypes.S (length (train_stream F (benchmark self)))).
Proof.
  intros Hs Hlive.
  destruct (String.eqb (strategy_name (args self)) "JOINT") eqn:Hn.
  - apply String.eqb_eq in Hn.
    destruct (run_experiment_joint F self s w Hn Hs) as (r & w' & -> & Ht & _).
    eexists. split; [exact Ht|]. split; reflexivity.
  - apply String.eqb_neq in Hn.
    destruct (run_experiment_non_joint F self s w Hn Hs Hlive)
      as (rs & r & w' & -> & Hlen & Ht & _).
    eexists. split; [exact Ht|].
    destruct (count_loop_events s (test_stream F (benchmark self))
                (train_stream F (benchmark self)) rs Hlen) as [Hct Hce].
    rewrite !count_events_app, Hct, Hce. cbn. split; lia.
Qed.

End Runs.

(** ** More on the comparison of feature extractors *)

Section Comparing.

Context {S : Type}.

Lemma check_unfold (self : Experiment) (frozen_model : ref) (w : World S)
    (m1 m2 : Model) :
  store w !! model self = Some m1 ->
  store w !! frozen_model = Some m2 ->
  check_if_feature_extractor_is_unchanged self frozen_model w =
    (check_param_pairs (zip (parameters (feature_extractor m1))
                            (parameters (feature_extractor m2))), w).
Proof.
  intros H1 H2. unfold check_if_feature_extractor_is_unchanged, bind, load.
  rewrite H1, H2. reflexivity.
Qed.

Lemma SFeqb_sym (x y : spec_float) : SFeqb x y = SFeqb y x.
Proof.
  unfold SFeqb, SFcompare.
  destruct x as [s1|s1| |s1 m1 e1], y as [s2|s2| |s2 m2 e2]; try reflexivity;
    try (destruct s1, s2; reflexivity); try (destruct s1; reflexivity);
    try (destruct s2; reflexivity).
  change (Pos.compare_cont Eq m1 m2) with (m1 ?= m2)%positive.
  change (Pos.compare_cont Eq m2 m1) with (m2 ?= m1)%positive.
  rewrite (Z.compare_antisym e1 e2), (Pos.compare_antisym m1 m2).
  destruct s1, s2; try reflexivity;
    destruct (e1 ?= e2)%Z; simpl; try reflexivity;
    destruct (m1 ?= m2)%positive; reflexivity.
Qed.

Lemma zip_with_ne_sym (l1 l2 : list spec_float) :
  zip_with_ne l1 l2 = zip_with_ne l2 l1.
Proof.
  revert l2. induction l1 as [|x l1 IH]; intros [|y l2]; try reflexivity.
  cbn [zip_with_ne]. unfold float_ne. rewrite SFeqb_sym, IH. reflexivity.
Qed.

Lemma broadcast_dim_sym (d1 d2 : nat) : broadcast_dim d1 d2 = broadcast_dim d2 d1.
Proof.
  unfold broadcast_dim. rewrite (Nat.eqb_sym d2 d1).
  destruct (Nat.eqb d1 d2) eqn:He.
  - apply Nat.eqb_eq in He. rewrite He. reflexivity.
  - destruct (Nat.eqb d1 1) eqn:H1, (Nat.eqb d2 1) eqn:H2; try reflexivity.
    apply Nat.eqb_eq in H1, H2. apply Nat.eqb_neq in He. lia.
Qed.

Lemma broadcast_dims_sym (s1 s2 : list nat) :
  broadcast_dims s1 s2 = broadcast_dims s2 s1.
Proof.
  revert s2. induction s1 as [|d1 s1 IH]; intros [|d2 s2]; try reflexivity.
  simpl. rewrite broadcast_dim_sym, IH.
  destruct (broadcast_dim d2 d1), (broadcast_dims s2 s1); reflexivity.
Qed.

Lemma broadcast_shapes_sym (s1 s2 : list nat) :
  broadcast_shapes s1 s2 = broadcast_shapes s2 s1.
Proof.
  unfold broadcast_shapes. rewrite (Nat.max_comm (length s2)).
  apply broadcast_dims_sym.
Qed.

Lemma tensor_ne_sym (t1 t2 : Tensor) : tensor_ne t1 t2 = tensor_ne t2 t1.
Proof.
  unfold tensor_ne. rewrite (broadcast_shapes_sym (shape t2) (shape t1)).
  destruct (broadcast_shapes (shape t1) (shape t2)); [|reflexivity].
  rewrite zip_with_ne_sym. reflexivity.
Qed.

Lemma check_param_pairs_sym (l1 l2 : list Param) :
  check_param_pairs (zip l1 l2) = check_param_pairs (zip l2 l1).
Proof.
  revert l2. induction l1 as [|p1 l1 IH]; intros [|p2 l2]; try reflexivity.
  cbn [zip check_param_pairs]. rewrite tensor_ne_sym, IH. reflexivity.
Qed.

(** X10.  The comparison does not depend on which model is the live one and
    which the frozen one. *)
Theorem check_is_symmetric (self self' : Experiment) (w : World S) (m m' : Model) :
  store w !! model self = Some m ->
  store w !! model self' = Some m' ->
  check_if_feature_extractor_is_unchanged self (model self') w =
  check_if_feature_extractor_is_unchanged self' (model self) w.
Proof.
  intros H H'.
  rewrite (check_unfold self (model self') w m m' H H').
  rewrite (check_unfold self' (model self) w m' m H' H).
  rewrite check_param_pairs_sym. reflexivity.
Qed.

Lemma check_param_pairs_same_shape (ps : list (Param * Param)) :
  Forall (fun pp => shape (data (fst pp)) = shape (data (snd pp))) ps ->
  exists b, check_param_pairs ps = Ok b.
Proof.
  induction 1 as [|[p1 p2] ps Hs _ IH]; [eexists; reflexivity|].
  cbn [check_param_pairs fst snd] in *.
  destruct (same_shape_compares _ _ Hs) as [d ->].
  destruct (0 <? _)%Z; [eexists; reflexivity | exact IH].
Qed.

Lemma check_param_pairs_outcome (ps : list (Param * Param)) :
  (exists b, check_param_pairs ps = Ok b) \/
  check_param_pairs ps =
    Raise (RuntimeError "The size of tensor a must match the size of tensor b").
Proof.
  induction ps as [|[p1 p2] ps IH]; [left; eexists; reflexivity|].
  cbn [check_param_pairs]. unfold tensor_ne.
  destruct (broadcast_shapes (shape (data p1)) (shape (data p2)));
    [|right; reflexivity].
  destruct (0 <? _)%Z; [left; eexists; reflexivity | exact IH].
Qed.

(** X11.  With both models in the store the method changes nothing and
    ends in one of three ways: True, False, or torch's RuntimeError for
    two tensors whose shapes do not broadcast.  When the two tensors of
    every compared pair have the same shape (and as many elements as the
    shape says), as for two networks of one architecture, it does not
    raise, and it returns False exactly when some pair is not
    element-wise equal. *)
Theorem check_outcomes (self : Experiment) (frozen_model : ref) (w : World S)
    (m1 m2 : Model) :
  store w !! model self = Some m1 ->
  store w !! frozen_model = Some m2 ->
  let pairs := zip (parameters (feature_extractor m1))
                   (parameters (feature_extractor m2)) in
  let equal (pp : Param * Param) :=
    shape (data (fst pp)) = shape (data (snd pp)) /\
    Forall2 (fun x y => SFeqb x y = true)
            (elems (data (fst pp))) (elems (data (snd pp))) in
  snd (check_if_feature_extractor_is_unchanged self frozen_model w) = w /\
  (fst (check_if_feature_extractor_is_unchanged self frozen_model w) = Ok true \/
   fst (check_if_feature_extractor_is_unchanged self frozen_model w) = Ok false \/
   fst (check_if_feature_extractor_is_unchanged self frozen_model w) =
     Raise (RuntimeError "The size of tensor a must match the size of tensor b")) /\
  (Forall (fun pp => length (elems (data (fst pp))) = numel (shape (data (fst pp))) /\
                     length (elems (data (snd pp))) = numel (shape (data (snd pp))) /\
                     shape (data (fst pp)) = shape (data (snd pp))) pairs ->
   (fst (check_if_feature_extractor_is_unchanged self frozen_model w) = Ok false <->
    ~ Forall equal pairs) /\
   (fst (check_if_feature_extractor_is_unchanged self frozen_model w) = Ok true <->
    Forall equal pairs)).
Proof.
  intros H1 H2 pairs equal.
  rewrite (check_unfold self frozen_model w m1 m2 H1 H2).
  fold pairs. cbn [fst snd]. split; [reflexivity|]. split.
  - destruct (check_param_pairs_outcome pairs) as [[[|] Hb] | Hr]; auto.
  - intros Hshape.
    assert (Hsh : Forall (fun pp => shape (data (fst pp)) = shape (data (snd pp)))
                         pairs).
    { eapply Forall_impl; [exact Hshape|]. cbn beta. tauto. }
    destruct (check_param_pairs_same_shape pairs Hsh) as [b Hb].
    assert (Htrue : check_param_pairs pairs = Ok true <-> Forall equal pairs).
    { split.
      - apply check_param_pairs_true_only_if. exact Hshape.
      - apply check_param_pairs_true_if. }
    rewrite <- Htrue, Hb. destruct b; split; split; intros H; congruence.
Qed.

Lemma zip_nil_r {A B} (l : list A) : zip l (@nil B) = [].
Proof. destruct l; reflexivity. Qed.

Lemma zip_app_l {A B} (l1 extra : list A) (l2 : list B) :
  length l1 = length l2 -> zip (l1 ++ extra) l2 = zip l1 l2.
Proof.
  revert l2. induction l1 as [|a l1 IH]; intros [|b l2] Hlen; try discriminate.
  - simpl. apply zip_nil_r.
  - simpl in *. injection Hlen as Hlen. rewrite IH by exact Hlen. reflexivity.
Qed.

(** X12.  Parameters beyond the shorter sequence are never looked at.  If one
    of the feature extractors has no parameters the method returns
    True; and if the live feature extractor consists of the frozen
    one's parameters (free of NaN) followed by any further parameters,
    it returns True as well. *)
Theorem check_ignores_surplus_parameters (self : Experiment) (frozen_model : ref)
    (w : World S) (m1 m2 : Model) :
  store w !! model self = Some m1 ->
  store w !! frozen_model = Some m2 ->
  (parameters (feature_extractor m1) = [] \/
   parameters (feature_extractor m2) = [] ->
   check_if_feature_extractor_is_unchanged self frozen_model w = (Ok true, w)) /\
  (forall extra,
     parameters (feature_extractor m1) =
       parameters (feature_extractor m2) ++ extra ->
     nan_free (feature_extractor m2) ->
     check_if_feature_extractor_is_unchanged self frozen_model w = (Ok true, w)).
Proof.
  intros H1 H2. rewrite (check_unfold self frozen_model w m1 m2 H1 H2). split.
  - intros [-> | ->]; [reflexivity|]. rewrite zip_nil_r. reflexivity.
  - intros extra -> Hn. rewrite zip_app_l by reflexivity. f_equal.
    apply check_param_pairs_true_if. apply same_data_pairs_equal; [reflexivity|].
    exact Hn.
Qed.

End Comparing.

(** ** The frozen copy *)

Section Snapshot.

Context {S : Type} (F : Framework S).

Lemma frozen_copy_frozen (m : Model) : frozen (feature_extractor (frozen_copy m)).
Proof.
  unfold frozen, frozen_copy, module_requires_grad_. cbn [feature_extractor parameters].
  induction (parameters (feature_extractor m)) as [|p ps IH];
    constructor; [reflexivity | exact IH].
Qed.

Lemma frozen_copy_data (m : Model) :
  map data (parameters (feature_extractor (frozen_copy m))) =
  map data (parameters (feature_extractor m)).
Proof.
  unfold frozen_copy, module_requires_grad_. cbn [feature_extractor parameters].
  rewrite map_map. reflexivity.
Qed.

(** X13.  Lines 82-83 followed by the comparison.  The copy is a new object
    next to the live model, which is not touched; its feature extractor
    holds the same data with every parameter frozen, its classifier is
    the same; and comparing the live model with it right away returns
    True when no parameter element is a NaN. *)
Theorem copy_then_compare (self : Experiment) (m : Model) (w : World S) :
  store w !! model self = Some m ->
  exists w',
    (let* frozen_model := deepcopy (model self) in
     feature_extractor_requires_grad_ frozen_model false;;
     ret frozen_model) w = (Ok (length (store w)), w') /\
    store w' = store w ++ [frozen_copy m] /\
    fw_state w' = fw_state w /\
    trace w' = trace w /\
    store w' !! model self = Some m /\
    model self <> length (store w) /\
    frozen (feature_extractor (frozen_copy m)) /\
    map data (parameters (feature_extractor (frozen_copy m))) =
      map data (parameters (feature_extractor m)) /\
    classifier (frozen_copy m) = classifier m /\
    (nan_free (feature_extractor m) ->
     check_if_feature_extractor_is_unchanged self (length (store w)) w' =
       (Ok true, w')).
Proof.
  intros Hm. eexists. split.
  { rewrite (copy_and_freeze self m (fun fm _ => ret fm) w Hm). reflexivity. }
  cbn [store fw_state trace].
  assert (Hlive : (store w ++ [frozen_copy m]) !! model self = Some m).
  { rewrite lookup_app_l; [exact Hm|]. apply lookup_lt_Some in Hm. exact Hm. }
  repeat split; try exact Hlive.
  - apply lookup_lt_Some in Hm. lia.
  - apply frozen_copy_frozen.
  - apply frozen_copy_data.
  - intros Hn.
    erewrite check_unfold;
      [|exact Hlive | cbn [store]; apply list_lookup_middle; reflexivity].
    f_equal. apply check_param_pairs_true_if.
    apply same_data_pairs_equal; [apply frozen_copy_data | exact Hn].
Qed.

Lemma last_layer_step_unfold (self : Experiment) (m : Model)
    (results : list Metrics) (w : World S) :
  store w !! model self = Some m ->
  let s := last_layer_strategy self in
  let train := train_stream F (benchmark self) in
  let test := test_stream F (benchmark self) in
  let x1 := strategy_train F s (WholeStream train)
              (store w ++ [frozen_copy m], fw_state w) in
  let x2 := strategy_eval F s test (fst (snd x1), snd (snd x1)) in
  last_layer_step F self results w =
    (Ok (length (store w), results ++ [fst x2]),
     mkWorld (fst (snd x2)) (snd (snd x2))
             (trace w ++ last_layer_events s train test (fst x2))).
Proof.
  intros Hm s train test x1 x2. unfold last_layer_step.
  rewrite (copy_and_freeze self m _ w Hm).
  rewrite bind_log_info. cbn [store fw_state trace].
  rewrite (bind_ok _ _ _ _ _ (call_train_unfold F _ _ _)).
  rewrite bind_log_info. cbn [store fw_state trace].
  rewrite (bind_ok _ _ _ _ _ (call_eval_unfold F _ _ _)).
  cbn [store fw_state trace]. unfold ret, last_layer_events.
  fold s train test. fold x1. fold x2.
  rewrite <- !app_assoc. reflexivity.
Qed.

Lemma pairs_with_same_data (P : Tensor -> Tensor -> Prop) (l1 l2 l2' : list Param) :
  map data l2' = map data l2 ->
  Forall (fun pp => P (data (fst pp)) (data (snd pp))) (zip l1 l2') <->
  Forall (fun pp => P (data (fst pp)) (data (snd pp))) (zip l1 l2).
Proof.
  revert l2 l2'. induction l1 as [|p l1 IH]; intros [|q l2] [|q' l2'] Hd;
    try discriminate; try tauto.
  simpl in Hd. injection Hd as Hq Hl. cbn [zip].
  rewrite !Forall_cons_iff. cbn [fst snd]. rewrite Hq, (IH l2 l2' Hl). tauto.
Qed.

Lemma zip_Forall2 (P : Tensor -> Tensor -> Prop) (l1 l2 : list Param) :
  length l1 = length l2 ->
  Forall (fun pp => P (data (fst pp)) (data (snd pp))) (zip l1 l2) <->
  Forall2 (fun p q => P (data p) (data q)) l1 l2.
Proof.
  revert l2. induction l1 as [|p l1 IH]; intros [|q l2] Hlen; try discriminate.
  - split; constructor.
  - simpl in Hlen. injection Hlen as Hlen. cbn [zip].
    rewrite Forall_cons_iff, (IH l2 Hlen). cbn [fst snd]. split.
    + intros [H1 H2]. constructor; assumption.
    + intros H. inversion H; subst. auto.
Qed.

(** X14.  With a framework that leaves frozen feature extractors alone,
    the frozen copy is a snapshot: after the last-layer step it still
    holds the feature-extractor values the live model had before the
    step.  So, when the step kept the number and the shapes of the live
    feature extractor's parameters (tensors having as many elements as
    their shape says), the comparison of the live model
    with the copy (the method called with the one argument it takes)
    returns True exactly when every parameter of the live feature
    extractor is element-wise equal to what it was before the step. *)
Theorem frozen_copy_is_a_snapshot (self : Experiment) (m : Model)
    (results : list Metrics) (w : World S) :
  keeps_frozen_feature_extractors F ->
  store w !! model self = Some m ->
  exists rs w' copy,
    last_layer_step F self results w = (Ok (length (store w), rs), w') /\
    store w' !! length (store w) = Some copy /\
    map data (parameters (feature_extractor copy)) =
      map data (parameters (feature_extractor m)) /\
    forall m', store w' !! model self = Some m' ->
      Forall2 (fun p q => length (elems (data p)) = numel (shape (data p)) /\
                          length (elems (data q)) = numel (shape (data q)) /\
                          shape (data p) = shape (data q))
              (parameters (feature_extractor m'))
              (parameters (feature_extractor m)) ->
      (check_if_feature_extractor_is_unchanged self (length (store w)) w' =
         (Ok true, w') <->
       Forall2 (fun p q => shape (data p) = shape (data q) /\
                           Forall2 (fun x y => SFeqb x y = true)
                                   (elems (data p)) (elems (data q)))
               (parameters (feature_extractor m'))
               (parameters (feature_extractor m))).
Proof.
  intros [Htrain Heval] Hm.
  pose proof (last_layer_step_unfold self m results w Hm) as Hstep.
  cbv zeta in Hstep.
  destruct (Htrain (last_layer_strategy self)
              (WholeStream (train_stream F (benchmark self)))
              (store w ++ [frozen_copy m]) (fw_state w)
              (length (store w)) (frozen_copy m))
    as (c1 & Hc1 & Hfe1);
    [apply list_lookup_middle; reflexivity | apply frozen_copy_frozen |].
  match type of Hstep with context [strategy_eval F ?s ?es (?st, ?fs)] =>
    destruct (Heval s es st fs (length (store w)) c1)
      as (c2 & Hc2 & Hfe2);
      [exact Hc1 | rewrite Hfe1; apply frozen_copy_frozen |] end.
  eexists. eexists. exists c2. split; [exact Hstep|].
  cbn [store]. split; [exact Hc2|].
  assert (Hdata : map data (parameters (feature_extractor c2)) =
                  map data (parameters (feature_extractor m))).
  { rewrite Hfe2, Hfe1. apply frozen_copy_data. }
  split; [exact Hdata|].
  intros m' Hm' Hshape.
  pose proof (Forall2_length _ _ _ Hshape) as Hlen.
  erewrite check_unfold; [|cbn [store]; exact Hm' | cbn [store]; exact Hc2].
  rewrite <- (zip_Forall2 elementwise_equal _ _ Hlen).
  rewrite <- (pairs_with_same_data elementwise_equal _ _ _ Hdata).
  apply (zip_Forall2 same_shape _ _) in Hshape; [|exact Hlen].
  apply (pairs_with_same_data same_shape _ _ _ Hdata) in Hshape.
  split.
  - intros [= Hc]. apply check_param_pairs_true_only_if; assumption.
  - intros Hall. f_equal. apply check_param_pairs_true_if. exact Hall.
Qed.

End Snapshot.

(** The sample framework leaves frozen feature extractors alone. *)
Lemma sample_framework_keeps_frozen :
  keeps_frozen_feature_extractors Sample.framework.
Proof.
  split.
  - intros s a st fs r m Hr Hf. cbn [Sample.framework strategy_train].
    unfold Sample.train. cbn [fst snd].
    destruct (Nat.eq_dec (strategy_model s) r) as [<- | Hne].
    + exists (Sample.step_model m). split.
      * rewrite list_lookup_alter_eq, Hr. reflexivity.
      * unfold Sample.step_model, Sample.step_module. cbn [feature_extractor].
        destruct (feature_extractor m) as [ps]. unfold frozen in Hf.
        cbn [parameters] in *. f_equal.
        induction Hf as [|p ps Hp _ IH]; [reflexivity|].
        cbn [map]. rewrite IH. unfold Sample.step_param. rewrite Hp. reflexivity.
    + exists m. split; [|reflexivity].
      rewrite list_lookup_alter_ne by exact Hne. exact Hr.
  - intros s es st fs r m Hr _. exists m. split; [exact Hr | reflexivity].
Qed.

(** ** The further properties on the sample inputs *)


(** X3 on the sample inputs. *)
Lemma init_shares_the_model_witness :
  adam_params (optimizer Sample.naive) = model Sample.naive /\
  (forall s, strategy Sample.naive = Some s ->
             strategy_model s = model Sample.naive).
Proof.
  destruct (init_shares_the_model Sample.framework Sample.env
              (Sample.sample_args "MNIST" "NAIVE") Sample.w0 Sample.w1
              Sample.naive eq_refl) as (_ & _ & _ & Ho & _ & Hs & _).
  split; assumption.
Defined.

(** X4 on the sample inputs. *)
Lemma run_after_init_witness :
  fst (run_experiment Sample.framework Sample.joint Sample.w1) = Ok tt /\
  fst (run_experiment Sample.framework Sample.naive Sample.w1) =
    Raise (TypeError "check_if_feature_extractor_is_unchanged") /\
  fst (run_experiment Sample.framework Sample.unknown Sample.w1) =
    Raise (AttributeError "train").
Proof.
  split; [|split].
  - apply (proj1 (run_after_init Sample.framework Sample.env
                    (Sample.sample_args "MNIST" "JOINT") Sample.w0 Sample.w1
                    Sample.joint eq_refl)).
    reflexivity.
  - apply (proj1 (proj2 (run_after_init Sample.framework Sample.env
                    (Sample.sample_args "MNIST" "NAIVE") Sample.w0 Sample.w1
                    Sample.naive eq_refl))).
    left. reflexivity.
  - apply (proj2 (proj2 (run_after_init Sample.framework Sample.env
                    (Sample.sample_args "MNIST" "FOO") Sample.w0 Sample.w1
                    Sample.unknown eq_refl)));
      vm_compute; discriminate.
Defined.

(** X5 on the sample inputs. *)
Lemma n_channels_match_benchmark_witness :
  n_channels (Sample.sample_args "MNIST" "NAIVE") = 1%Z /\
  n_channels (Sample.sample_args "CUB200" "NAIVE") = 3%Z.
Proof.
  split.
  - apply (n_channels_match_benchmark (Sample.sample_args "MNIST" "NAIVE")
             Sample.w0 Sample.w0 (SplitMNIST 2) eq_refl).
  - apply (n_channels_match_benchmark (Sample.sample_args "CUB200" "NAIVE")
             Sample.w0 Sample.w0 (SplitCUB200 2) eq_refl).
Defined.

(** X6 on the sample inputs. *)
Lemma loop_threads_the_state_witness :
  exists w',
    experience_loop Sample.framework Sample.naive (Sample.stream 2) [] Sample.w1 =
      (Ok ([] ++ [[("Top1_Acc_Stream"%string, Sample.one)];
                  [("Top1_Acc_Stream"%string, Sample.one)]]), w') /\
    (store w', fw_state w') = (store Sample.w1, tt).
Proof.
  apply (loop_threads_the_state Sample.framework Sample.naive
           (Naive (base_args (Sample.mnist_experiment "NAIVE" None)
                             (Sample.sample_args "MNIST" "NAIVE")))
           eq_refl (Sample.stream 2) [] Sample.w1).
Defined.

(** X7 on the sample inputs. *)
Lemma no_strategy_stops_at_first_train_witness :
  fst (run_experiment Sample.framework Sample.unknown Sample.w1) =
    Raise (AttributeError "train") /\
  store (snd (run_experiment Sample.framework Sample.unknown Sample.w1)) =
    store Sample.w1.
Proof.
  destruct (no_strategy_stops_at_first_train Sample.framework Sample.unknown
              (mkExperience 0 [0%Z]) [mkExperience 1 [1%Z]] Sample.w1
              ltac:(vm_compute; discriminate) eq_refl eq_refl)
    as (Ho & Hs & _).
  split; assumption.
Defined.

(** X8 on the sample inputs. *)
Lemma empty_stream_skips_the_loop_witness :
  exists r w',
    run_experiment Sample.framework
      (Sample.with_benchmark (SplitMNIST 0) Sample.unknown) Sample.w1 =
      (Raise (TypeError "check_if_feature_extractor_is_unchanged"), w') /\
    trace w' = trace Sample.w1 ++
      [ LogInfo (Text "Starting experiment...");
        LogInfo (Text "JOINT TRAINING ONLY ON LAST LAYER");
        CallTrain (last_layer_strategy
                     (Sample.with_benchmark (SplitMNIST 0) Sample.unknown))
                  (WholeStream []);
        LogInfo (Text "EVAL ON JOINT TRAINING ONLY ON LAST LAYER");
        CallEval (last_layer_strategy
                    (Sample.with_benchmark (SplitMNIST 0) Sample.unknown)) [] r ] /\
    length (store w') = 2.
Proof.
  apply (empty_stream_skips_the_loop Sample.framework
           (Sample.with_benchmark (SplitMNIST 0) Sample.unknown) Sample.w1).
  - vm_compute. discriminate.
  - reflexivity.
  - vm_compute. lia.
Defined.

(** X9 on the sample inputs. *)
Lemma number_of_framework_calls_witness :
  exists evs,
    trace (snd (run_experiment Sample.framework Sample.naive Sample.w1)) =
      trace Sample.w1 ++ evs /\
    count_events is_train evs = 3 /\
    count_events is_eval evs = 3.
Proof.
  apply (number_of_framework_calls Sample.framework Sample.naive
           (Naive (base_args (Sample.mnist_experiment "NAIVE" None)
                             (Sample.sample_args "MNIST" "NAIVE")))
           Sample.w1 eq_refl ltac:(vm_compute; lia)).
Defined.

(** X10 on the sample inputs. *)
Lemma check_is_symmetric_witness :
  check_if_feature_extractor_is_unchanged Sample.naive 1 Sample.w_trained =
  check_if_feature_extractor_is_unchanged (Sample.with_model 1 Sample.naive) 0
    Sample.w_trained.
Proof.
  apply (check_is_symmetric Sample.naive (Sample.with_model 1 Sample.naive)
           Sample.w_trained (Sample.step_model (Sample.net 10 5 1))
           (frozen_copy (Sample.net 10 5 1)) eq_refl eq_refl).
Defined.

(** X11 on the sample inputs. *)
Lemma check_outcomes_witness :
  fst (check_if_feature_extractor_is_unchanged Sample.naive 1 Sample.w_trained) =
    Ok false <->
  ~ Forall (fun pp => elementwise_equal (data (fst pp)) (data (snd pp)))
      (zip (parameters (feature_extractor (Sample.step_model (Sample.net 10 5 1))))
           (parameters (feature_extractor (frozen_copy (Sample.net 10 5 1))))).
Proof.
  apply (proj2 (proj2 (check_outcomes Sample.naive 1 Sample.w_trained
                         (Sample.step_model (Sample.net 10 5 1))
                         (frozen_copy (Sample.net 10 5 1)) eq_refl eq_refl))).
  repeat constructor.
Defined.

(** X12 on the sample inputs. *)
Lemma check_ignores_surplus_parameters_witness :
  let live := mkModel (mkModule [mkParam (Sample.vec [Sample.one]) true;
                                 mkParam (Sample.vec [Sample.nan]) true])
                      (mkModule []) in
  let copy := mkModel (mkModule [mkParam (Sample.vec [Sample.one]) true])
                      (mkModule []) in
  let none := mkModel (mkModule []) (mkModule []) in
  let w : World unit := mkWorld [live; copy; none] tt [] in
  check_if_feature_extractor_is_unchanged Sample.naive 1 w = (Ok true, w) /\
  check_if_feature_extractor_is_unchanged Sample.naive 2 w = (Ok true, w).
Proof.
  intros live copy none w. split.
  - apply (proj2 (check_ignores_surplus_parameters Sample.naive 1 w live copy
                    eq_refl eq_refl) [mkParam (Sample.vec [Sample.nan]) true]).
    + reflexivity.
    + repeat constructor.
  - apply (proj1 (check_ignores_surplus_parameters Sample.naive 2 w live none
                    eq_refl eq_refl)).
    right. reflexivity.
Defined.

(** X13 on the sample inputs. *)
Lemma copy_then_compare_witness :
  exists w',
    (let* frozen_model := deepcopy (model Sample.naive) in
     feature_extractor_requires_grad_ frozen_model false;;
     ret frozen_model) Sample.w1 = (Ok 1, w') /\
    check_if_feature_extractor_is_unchanged Sample.naive 1 w' = (Ok true, w').
Proof.
  destruct (copy_then_compare Sample.naive (Sample.net 10 5 1) Sample.w1 eq_refl)
    as (w' & Hrun & _ & _ & _ & _ & _ & _ & _ & _ & Hcheck).
  exists w'. split; [exact Hrun|]. apply Hcheck. repeat constructor.
Defined.

(** X14 on the sample inputs. *)
Lemma frozen_copy_is_a_snapshot_witness :
  exists rs w' copy,
    last_layer_step Sample.framework Sample.naive [] Sample.w1 = (Ok (1, rs), w') /\
    store w' !! 1 = Some copy /\
    map data (parameters (feature_extractor copy)) = [Sample.vec [Sample.one]] /\
    (check_if_feature_extractor_is_unchanged Sample.naive 1 w' = (Ok true, w') <->
     Forall2 (fun p q => shape (data p) = shape (data q) /\
                         Forall2 (fun x y => SFeqb x y = true)
                                 (elems (data p)) (elems (data q)))
             (parameters (feature_extractor (Sample.step_model (Sample.net 10 5 1))))
             (parameters (feature_extractor (Sample.net 10 5 1)))).
Proof.
  destruct (frozen_copy_is_a_snapshot Sample.framework Sample.naive
              (Sample.net 10 5 1) [] Sample.w1
              sample_framework_keeps_frozen eq_refl)
    as (rs & w' & copy & Hstep & Hcopy & Hdata & Hiff).
  exists rs, w', copy. repeat split; try assumption.
  - apply (Hiff (Sample.step_model (Sample.net 10 5 1))).
    + vm_compute in Hstep. injection Hstep as _ <-. reflexivity.
    + repeat constructor.
  - apply (Hiff (Sample.step_model (Sample.net 10 5 1))).
    + vm_compute in Hstep. injection Hstep as _ <-. reflexivity.
    + repeat constructor.
Defined.
